(** * Titan Text Embeddings V2 notebook: a shallow embedding of its Python cells

    Source: [src/embeddings/Titan-V2-Embeddings.ipynb] (Python 3.11).

    The notebook is glue around two libraries it does not own: the vendor SDK
    (boto3) and the standard [json] module.  The embedding follows the cells:

    - Python values are the values of the JSON data model, which is what
      [json.loads] returns: [None], [bool], [int], [float], [str], [list] and
      [dict] with [str] keys in insertion order;
    - a [str] is a sequence of code points below 256, one per [ascii];
    - a [float] is carried by the decimal it prints as; the notebook does no
      arithmetic on floats;
    - [json.dumps], [json.loads], [str], [repr], [str.strip], [str.lower] are
      models of the Python 3.11 library functions with their default
      arguments; input the model does not cover (a [\u] escape at or above
      256, a float literal of more than 15 significant digits) is answered
      with [Unmodelled], which no [except] clause catches;
    - interpreter limits (recursion depth, memory, the int-to-str digit limit)
      and what [print] writes are left out;
    - the SDK is an oracle in the [World]: each remote operation answers from
      the trace of operations issued so far and the current request; the
      SDK's own retries happen inside one oracle answer;
    - objects live in a [Store] with a heap, the [TitanEmbeddings] class
      attributes, the notebook's global names and the trace of SDK calls. *)

From Stdlib Require Import List String Ascii ZArith NArith Bool Lia DecimalString.
Import ListNotations.

Local Open Scope string_scope.
Local Open Scope Z_scope.

(** ** Results of Python evaluation *)

Inductive BotoError : Type :=
| ClientError (code : string)      (* botocore.exceptions.ClientError, by error code *)
| BotoCoreError (name : string).   (* any other botocore exception, by class name *)

Inductive Exn : Type :=
| AttributeError (attr : string)
| TypeError (msg : string)
| KeyError (key : string)
| NameError (name : string)
| JSONDecodeError
| SdkError (e : BotoError).

Inductive Res (A : Type) : Type :=
| Ret (a : A)
| Raise (e : Exn)
| Unmodelled.

Arguments Ret {A} a.
Arguments Raise {A} e.
Arguments Unmodelled {A}.

Definition rbind {A B : Type} (r : Res A) (k : A -> Res B) : Res B :=
  match r with
  | Ret a => k a
  | Raise e => Raise e
  | Unmodelled => Unmodelled
  end.

(** [try: body / except: handler] with a bare [except]. *)
Definition try_except {A : Type} (body : Res A) (handler : Res A) : Res A :=
  match body with
  | Ret a => Ret a
  | Raise _ => handler
  | Unmodelled => Unmodelled
  end.

Definition raises {A : Type} (r : Res A) : Prop := exists e, r = Raise e.

Declare Scope res_scope.
Delimit Scope res_scope with res.
Notation "x <- c ;; k" := (rbind c (fun x => k))
  (at level 100, c at next level, right associativity) : res_scope.

(** ** Python values *)

#[local] Set Warnings "-register-all".

Inductive PyFloat : Type :=
| FNaN
| FInf (neg : bool)
| FDec (neg : bool) (mant : N) (exp : Z).   (* (-1)^neg * mant * 10^exp *)

Inductive PyVal : Type :=
| PNone
| PBool (b : bool)
| PInt (n : Z)
| PFloat (f : PyFloat)
| PStr (s : string)
| PList (items : list PyVal)
| PDict (items : list (string * PyVal)).

Definition isinstance_dict (v : PyVal) : bool :=
  match v with PDict _ => true | _ => false end.

(** [bool(v)], as [if v] and [not v] use it. *)
Definition truthy (v : PyVal) : bool :=
  match v with
  | PNone => false
  | PBool b => b
  | PInt n => negb (n =? 0)
  | PFloat (FDec _ m _) => negb (m =? 0)%N
  | PFloat _ => true
  | PStr s => negb (String.length s =? 0)%nat
  | PList l => match l with [] => false | _ => true end
  | PDict l => match l with [] => false | _ => true end
  end.

(** ** Strings *)

Module Str.

Definition code (c : ascii) : N := N_of_ascii c.

(** [str.isspace] on one code point below 256. *)
Definition isspace (c : ascii) : bool :=
  let n := code c in
  ((9 <=? n) && (n <=? 13) || (28 <=? n) && (n <=? 32)
   || (n =? 133) || (n =? 160))%N.

Fixpoint lstrip (s : string) : string :=
  match s with
  | EmptyString => EmptyString
  | String c r => if isspace c then lstrip r else s
  end.

Fixpoint rstrip (s : string) : string :=
  match s with
  | EmptyString => EmptyString
  | String c r =>
      match rstrip r with
      | EmptyString => if isspace c then EmptyString else String c EmptyString
      | r' => String c r'
      end
  end.

Definition strip (s : string) : string := rstrip (lstrip s).

Definition lower_char (c : ascii) : ascii :=
  let n := code c in
  if ((65 <=? n) && (n <=? 90)
      || (192 <=? n) && (n <=? 222) && negb (n =? 215))%N
  then ascii_of_N (n + 32) else c.

Fixpoint lower (s : string) : string :=
  match s with
  | EmptyString => EmptyString
  | String c r => String (lower_char c) (lower r)
  end.

(** [sub in s] *)
Fixpoint contains (sub s : string) : bool :=
  if prefix sub s then true
  else match s with
       | EmptyString => false
       | String _ r => contains sub r
       end.

(** [sep.join(parts)] *)
Fixpoint join (sep : string) (parts : list string) : string :=
  match parts with
  | [] => ""
  | [p] => p
  | p :: rest => p ++ sep ++ join sep rest
  end.

(** [s[:n]] for [n >= 0] *)
Fixpoint slice_to (n : N) (s : string) : string :=
  match s with
  | EmptyString => ""
  | String c r => if (n =? 0)%N then "" else String c (slice_to (N.pred n) r)
  end.

(** [s[n:]] for [n >= 0] *)
Fixpoint slice_from (n : N) (s : string) : string :=
  match s with
  | EmptyString => ""
  | String _ r => if (n =? 0)%N then s else slice_from (N.pred n) r
  end.

Fixpoint repeat (c : ascii) (n : nat) : string :=
  match n with
  | O => ""
  | S n' => String c (repeat c n')
  end.

Definition hex_digit (n : N) : ascii :=
  if (n <? 10)%N then ascii_of_N (48 + n) else ascii_of_N (87 + n).

(** two lowercase hex digits of a code point *)
Definition hex2 (c : ascii) : string :=
  let n := code c in
  String (hex_digit (n / 16)) (String (hex_digit (n mod 16)) "").

Definition of_N (n : N) : string := NilZero.string_of_uint (N.to_uint n).
Definition of_Z (n : Z) : string := NilZero.string_of_int (Z.to_int n).

End Str.

(** ** [repr] and [str] *)

Module Py.

Definition dquote : ascii := ascii_of_N 34.
Definition squote : ascii := ascii_of_N 39.
Definition backslash : ascii := ascii_of_N 92.

(** Digits of a float and the position of its decimal point: trailing zeros
    of the mantissa move into the exponent. *)
Fixpoint strip_zeros_rev (ds : list ascii) (e : Z) : list ascii * Z :=
  match ds with
  | c :: r => if (Str.code c =? 48)%N then strip_zeros_rev r (e + 1) else (ds, e)
  | [] => ([], e)
  end.

Definition float_digits (m : N) (e : Z) : string * Z :=
  let '(rds, e') := strip_zeros_rev (rev (list_ascii_of_string (Str.of_N m))) e in
  let ds := string_of_list_ascii (rev rds) in
  (ds, Z.of_nat (String.length ds) + e').

Definition two_digits (n : Z) : string :=
  if n <? 10 then String (ascii_of_N 48) (Str.of_Z n) else Str.of_Z n.

(** [float.__repr__]: shortest digits, exponent form when the decimal point
    falls at or before -4 or after 16. *)
Definition float_repr (f : PyFloat) : string :=
  match f with
  | FNaN => "nan"
  | FInf neg => if neg then "-inf" else "inf"
  | FDec neg m e =>
      let sign := if neg then "-" else "" in
      if (m =? 0)%N then sign ++ "0.0"
      else
        let '(ds, decpt) := float_digits m e in
        let n := Z.of_nat (String.length ds) in
        if (decpt <=? -4) || (16 <? decpt) then
          let x := decpt - 1 in
          sign ++ Str.slice_to 1 ds
               ++ (if 1 <? n then "." ++ Str.slice_from 1 ds else "")
               ++ "e" ++ (if x <? 0 then "-" else "+") ++ two_digits (Z.abs x)
        else if decpt <=? 0 then
          sign ++ "0." ++ Str.repeat (ascii_of_N 48) (Z.to_nat (- decpt)) ++ ds
        else if decpt <? n then
          sign ++ Str.slice_to (Z.to_N decpt) ds ++ "."
               ++ Str.slice_from (Z.to_N decpt) ds
        else
          sign ++ ds ++ Str.repeat (ascii_of_N 48) (Z.to_nat (decpt - n)) ++ ".0"
  end.

Definition printable (c : ascii) : bool :=
  let n := Str.code c in
  ((32 <=? n) && (n <? 127) || (161 <=? n) && negb (n =? 173))%N.

Definition repr_char (quote c : ascii) : string :=
  let n := Str.code c in
  if Ascii.eqb c quote || Ascii.eqb c backslash then String backslash (String c "")
  else if (n =? 9)%N then String backslash "t"
  else if (n =? 10)%N then String backslash "n"
  else if (n =? 13)%N then String backslash "r"
  else if printable c then String c ""
  else String backslash ("x" ++ Str.hex2 c).

Fixpoint repr_chars (quote : ascii) (s : string) : string :=
  match s with
  | EmptyString => ""
  | String c r => repr_char quote c ++ repr_chars quote r
  end.

(** [repr] of a [str]: single quotes unless the text has one and no double
    quote. *)
Definition str_repr (s : string) : string :=
  let quote :=
    if Str.contains (String squote "") s && negb (Str.contains (String dquote "") s)
    then dquote else squote in
  String quote (repr_chars quote s ++ String quote "").

Fixpoint repr (v : PyVal) : string :=
  match v with
  | PNone => "None"
  | PBool b => if b then "True" else "False"
  | PInt n => Str.of_Z n
  | PFloat f => float_repr f
  | PStr s => str_repr s
  | PList l => "[" ++ Str.join ", " (map repr l) ++ "]"
  | PDict l =>
      "{" ++ Str.join ", " (map (fun kv => str_repr (fst kv) ++ ": " ++ repr (snd kv)) l)
          ++ "}"
  end.

(** [str(v)] *)
Definition str (v : PyVal) : string :=
  match v with
  | PStr s => s
  | _ => repr v
  end.

(** [d[key]] on a dict's items and [d.get(key)]. *)
Fixpoint lookup (key : string) (items : list (string * PyVal)) : option PyVal :=
  match items with
  | [] => None
  | (k, v) :: r => if String.eqb k key then Some v else lookup key r
  end.

(** [d[key] = v]: a new key goes last, a known key keeps its place. *)
Fixpoint setitem (key : string) (v : PyVal) (items : list (string * PyVal))
  : list (string * PyVal) :=
  match items with
  | [] => [(key, v)]
  | (k, v0) :: r => if String.eqb k key then (k, v) :: r else (k, v0) :: setitem key v r
  end.

(** [v[key]] for a [str] key. *)
Definition getitem (v : PyVal) (key : string) : Res PyVal :=
  match v with
  | PDict items =>
      match lookup key items with
      | Some x => Ret x
      | None => Raise (KeyError key)
      end
  | PList _ => Raise (TypeError "list indices must be integers or slices, not str")
  | PStr _ => Raise (TypeError "string indices must be integers, not 'str'")
  | _ => Raise (TypeError "object is not subscriptable")
  end.

(** [v.get(key)] *)
Definition get (v : PyVal) (key : string) : Res PyVal :=
  match v with
  | PDict items =>
      match lookup key items with
      | Some x => Ret x
      | None => Ret PNone
      end
  | _ => Raise (AttributeError "get")
  end.

End Py.

(** ** The [json] module *)

Module Json.

(** *** [json.dumps(obj)] with the default encoder *)

Definition escape_char (c : ascii) : string :=
  let n := Str.code c in
  if Ascii.eqb c Py.dquote || Ascii.eqb c Py.backslash
  then String Py.backslash (String c "")
  else if (n =? 8)%N then String Py.backslash "b"
  else if (n =? 12)%N then String Py.backslash "f"
  else if (n =? 10)%N then String Py.backslash "n"
  else if (n =? 13)%N then String Py.backslash "r"
  else if (n =? 9)%N then String Py.backslash "t"
  else if ((32 <=? n) && (n <=? 126))%N then String c ""
  else String Py.backslash ("u00" ++ Str.hex2 c).

Fixpoint escape (s : string) : string :=
  match s with
  | EmptyString => ""
  | String c r => escape_char c ++ escape r
  end.

(** [encode_basestring_ascii] *)
Definition encode_str (s : string) : string :=
  String Py.dquote (escape s ++ String Py.dquote "").

Definition encode_float (f : PyFloat) : string :=
  match f with
  | FNaN => "NaN"
  | FInf neg => if neg then "-Infinity" else "Infinity"
  | _ => Py.float_repr f
  end.

Fixpoint dumps (obj : PyVal) : string :=
  match obj with
  | PNone => "null"
  | PBool b => if b then "true" else "false"
  | PInt n => Str.of_Z n
  | PFloat f => encode_float f
  | PStr s => encode_str s
  | PList l => "[" ++ Str.join ", " (map dumps l) ++ "]"
  | PDict l =>
      "{" ++ Str.join ", " (map (fun kv => encode_str (fst kv) ++ ": " ++ dumps (snd kv)) l)
          ++ "}"
  end.

(** *** [json.loads(s)] with the default decoder *)

Inductive Parsed (A : Type) : Type :=
| Got (a : A) (rest : list ascii)
| Bad        (* JSONDecodeError *)
| Beyond.    (* outside the model *)

Arguments Got {A} a rest.
Arguments Bad {A}.
Arguments Beyond {A}.

Definition is_ws (c : ascii) : bool :=
  let n := Str.code c in
  ((n =? 32) || (n =? 9) || (n =? 10) || (n =? 13))%N.

Fixpoint skip_ws (s : list ascii) : list ascii :=
  match s with
  | c :: r => if is_ws c then skip_ws r else s
  | [] => []
  end.

Definition is_digit (c : ascii) : bool :=
  let n := Str.code c in ((48 <=? n) && (n <=? 57))%N.

Definition hex_value (c : ascii) : option N :=
  let n := Str.code c in
  if ((48 <=? n) && (n <=? 57))%N then Some (n - 48)%N
  else if ((97 <=? n) && (n <=? 102))%N then Some (n - 87)%N
  else if ((65 <=? n) && (n <=? 70))%N then Some (n - 55)%N
  else None.

Definition hex4 (a b c d : ascii) : option N :=
  match hex_value a, hex_value b, hex_value c, hex_value d with
  | Some x, Some y, Some z, Some w => Some (((x * 16 + y) * 16 + z) * 16 + w)%N
  | _, _, _, _ => None
  end.

Definition simple_escape (c : ascii) : option ascii :=
  if Ascii.eqb c Py.dquote then Some Py.dquote
  else if Ascii.eqb c Py.backslash then Some Py.backslash
  else if Ascii.eqb c "/" then Some "/"%char
  else if Ascii.eqb c "b" then Some (ascii_of_N 8)
  else if Ascii.eqb c "f" then Some (ascii_of_N 12)
  else if Ascii.eqb c "n" then Some (ascii_of_N 10)
  else if Ascii.eqb c "r" then Some (ascii_of_N 13)
  else if Ascii.eqb c "t" then Some (ascii_of_N 9)
  else None.

(** [scanstring] in strict mode, from the character after the opening quote;
    [acc] holds the characters read so far, last first. *)
Fixpoint scanstring (s : list ascii) (acc : list ascii) : Parsed string :=
  match s with
  | [] => Bad
  | c :: r =>
      if Ascii.eqb c Py.dquote then Got (string_of_list_ascii (rev acc)) r
      else if Ascii.eqb c Py.backslash then
        match r with
        | [] => Bad
        | e :: r1 =>
            if Ascii.eqb e "u" then
              match r1 with
              | h1 :: h2 :: h3 :: h4 :: r2 =>
                  match hex4 h1 h2 h3 h4 with
                  | Some n =>
                      if (n <? 256)%N then scanstring r2 (ascii_of_N n :: acc)
                      else Beyond
                  | None => Bad
                  end
              | _ => Bad
              end
            else
              match simple_escape e with
              | Some x => scanstring r1 (x :: acc)
              | None => Bad
              end
        end
      else if (Str.code c <? 32)%N then Bad
      else scanstring r (c :: acc)
  end.

Fixpoint span_digits (s : list ascii) : list ascii * list ascii :=
  match s with
  | c :: r =>
      if is_digit c then let '(ds, rest) := span_digits r in (c :: ds, rest)
      else ([], s)
  | [] => ([], [])
  end.

Fixpoint digits_value (ds : list ascii) (acc : N) : N :=
  match ds with
  | c :: r => digits_value r (acc * 10 + (Str.code c - 48))%N
  | [] => acc
  end.

(** the integer part of NUMBER_RE: [0] or a nonzero digit and more digits *)
Definition span_int (s : list ascii) : list ascii * list ascii :=
  match s with
  | c :: r =>
      if Ascii.eqb c "0" then ([c], r)
      else if is_digit c then span_digits s
      else ([], s)
  | [] => ([], [])
  end.

(** the optional fraction: a dot and at least one digit *)
Definition span_frac (s : list ascii) : option (list ascii) * list ascii :=
  match s with
  | c :: r =>
      if Ascii.eqb c "." then
        match span_digits r with
        | ([], _) => (None, s)
        | (ds, rest) => (Some ds, rest)
        end
      else (None, s)
  | [] => (None, [])
  end.

(** the optional exponent: [e] or [E], a sign or none, at least one digit *)
Definition span_exp (s : list ascii) : option Z * list ascii :=
  match s with
  | c :: r =>
      if Ascii.eqb c "e" || Ascii.eqb c "E" then
        let '(neg, r1) :=
          match r with
          | x :: r' =>
              if Ascii.eqb x "-" then (true, r')
              else if Ascii.eqb x "+" then (false, r')
              else (false, r)
          | [] => (false, r)
          end in
        match span_digits r1 with
        | ([], _) => (None, s)
        | (ds, rest) =>
            let v := Z.of_N (digits_value ds 0) in
            (Some (if neg then - v else v), rest)
        end
      else (None, s)
  | [] => (None, [])
  end.

(** [float(text)] for a literal whose value the decimal model carries. *)
Definition make_float (neg : bool) (digits : list ascii) (e : Z) : option PyFloat :=
  let m := digits_value digits 0 in
  if (m =? 0)%N then Some (FDec neg 0 0)
  else
    let '(ds, decpt) := Py.float_digits m e in
    let n := String.length ds in
    if (n <=? 15)%nat && (-290 <=? decpt) && (decpt <=? 290)
    then Some (FDec neg (digits_value (list_ascii_of_string ds) 0) (decpt - Z.of_nat n))
    else None.

(** A match of NUMBER_RE at the head of [s]: [None] when there is none. *)
Definition scan_number (s : list ascii) : option (Parsed PyVal) :=
  let '(neg, s1) :=
    match s with
    | c :: r => if Ascii.eqb c "-" then (true, r) else (false, s)
    | [] => (false, s)
    end in
  match span_int s1 with
  | ([], _) => None
  | (ds, s2) =>
      let '(frac, s3) := span_frac s2 in
      let '(ex, s4) := span_exp s3 in
      match frac, ex with
      | None, None =>
          let v := Z.of_N (digits_value ds 0) in
          Some (Got (PInt (if neg then - v else v)) s4)
      | _, _ =>
          let fd := match frac with Some f => f | None => [] end in
          let e := match ex with Some x => x | None => 0 end in
          match make_float neg (ds ++ fd)%list (e - Z.of_nat (List.length fd)) with
          | Some f => Some (Got (PFloat f) s4)
          | None => Some Beyond
          end
      end
  end.

Fixpoint strip_prefix (p s : list ascii) : option (list ascii) :=
  match p, s with
  | [], _ => Some s
  | a :: p', b :: s' => if Ascii.eqb a b then strip_prefix p' s' else None
  | _ :: _, [] => None
  end.

Definition literal (word : string) (v : PyVal) (s : list ascii) : option (Parsed PyVal) :=
  match strip_prefix (list_ascii_of_string word) s with
  | Some rest => Some (Got v rest)
  | None => None
  end.

Definition first_of (alts : list (option (Parsed PyVal))) : Parsed PyVal :=
  match fold_right (fun a r => match a with Some x => Some x | None => r end) None alts with
  | Some x => x
  | None => Bad
  end.

(** [scan_once], [JSONObject] and [JSONArray]; the fuel bounds the nesting. *)
Fixpoint scan_once (fuel : nat) (s : list ascii) : Parsed PyVal :=
  match fuel with
  | O => Beyond
  | S f =>
      match s with
      | [] => Bad
      | c :: r =>
          if Ascii.eqb c Py.dquote then
            match scanstring r [] with
            | Got x rest => Got (PStr x) rest
            | Bad => Bad
            | Beyond => Beyond
            end
          else if Ascii.eqb c "{" then
            match skip_ws r with
            | x :: r1 =>
                if Ascii.eqb x "}" then Got (PDict []) r1
                else if Ascii.eqb x Py.dquote then scan_members f r1 []
                else Bad
            | [] => Bad
            end
          else if Ascii.eqb c "[" then
            match skip_ws r with
            | x :: r1 =>
                if Ascii.eqb x "]" then Got (PList []) r1
                else scan_elements f (x :: r1) []
            | [] => Bad
            end
          else
            first_of [ literal "null" PNone s; literal "true" (PBool true) s;
                       literal "false" (PBool false) s; scan_number s;
                       literal "NaN" (PFloat FNaN) s;
                       literal "Infinity" (PFloat (FInf false)) s;
                       literal "-Infinity" (PFloat (FInf true)) s ]
      end
  end

(** from the character after a key's opening quote *)
with scan_members (fuel : nat) (s : list ascii) (pairs : list (string * PyVal))
  : Parsed PyVal :=
  match fuel with
  | O => Beyond
  | S f =>
      match scanstring s [] with
      | Got key r =>
          match skip_ws r with
          | c :: r1 =>
              if Ascii.eqb c ":" then
                match scan_once f (skip_ws r1) with
                | Got value r2 =>
                    let pairs' := Py.setitem key value pairs in
                    match skip_ws r2 with
                    | x :: r3 =>
                        if Ascii.eqb x "}" then Got (PDict pairs') r3
                        else if Ascii.eqb x "," then
                          match skip_ws r3 with
                          | q :: r4 =>
                              if Ascii.eqb q Py.dquote then scan_members f r4 pairs'
                              else Bad
                          | [] => Bad
                          end
                        else Bad
                    | [] => Bad
                    end
                | Bad => Bad
                | Beyond => Beyond
                end
              else Bad
          | [] => Bad
          end
      | Bad => Bad
      | Beyond => Beyond
      end
  end

(** from the first character of an element; [values] last first *)
with scan_elements (fuel : nat) (s : list ascii) (values : list PyVal)
  : Parsed PyVal :=
  match fuel with
  | O => Beyond
  | S f =>
      match scan_once f s with
      | Got value r =>
          match skip_ws r with
          | x :: r1 =>
              if Ascii.eqb x "]" then Got (PList (rev (value :: values))) r1
              else if Ascii.eqb x "," then scan_elements f (skip_ws r1) (value :: values)
              else Bad
          | [] => Bad
          end
      | Bad => Bad
      | Beyond => Beyond
      end
  end.

(** [JSONDecoder.decode]: one value between optional blanks, nothing after. *)
Definition decode (s : string) : Res PyVal :=
  let cs := list_ascii_of_string s in
  match scan_once (2 * List.length cs + 2) (skip_ws cs) with
  | Got v rest =>
      match skip_ws rest with
      | [] => Ret v
      | _ :: _ => Raise JSONDecodeError
      end
  | Bad => Raise JSONDecodeError
  | Beyond => Unmodelled
  end.

Definition loads (s : PyVal) : Res PyVal :=
  match s with
  | PStr text => decode text
  | _ => Raise (TypeError "the JSON object must be str, bytes or bytearray")
  end.

End Json.

(** ** The vendor SDK (boto3) *)

Record Session : Type := {
  session_region_name : option string;
  session_profile_name : option string }.

(** [botocore.config.Config(region_name=..., retries={max_attempts, mode})] *)
Record Config : Type := {
  config_region_name : option string;
  retries_max_attempts : Z;
  retries_mode : string }.

Record Credentials : Type := {
  AccessKeyId : string;
  SecretAccessKey : string;
  SessionToken : string }.

(** A client, as the keyword arguments it was created with. *)
Record Client : Type := {
  session : Session;
  service_name : string;
  region_name : option string;
  config : option Config;
  endpoint_url : option string;
  credentials : option Credentials }.

(** The keyword arguments of [client.invoke_model], and the client used. *)
Record InvokeModelRequest : Type := {
  via : Client;
  body : string;
  modelId : string;
  accept : string;
  contentType : string }.

Record AssumeRoleRequest : Type := {
  sts_session : Session;
  RoleArn : string;
  RoleSessionName : string;
  ExternalId : option string }.

(** What [response.get('body').read()] gives: the text of the body, or no
    ['body'] entry at all. *)
Record Response : Type := { response_body : option string }.

Inductive Event : Type :=
| InvokeModel (r : InvokeModelRequest)
| AssumeRole (r : AssumeRoleRequest).

Record World : Type := {
  environ_AWS_PROFILE : option string;
  sts_assume_role : list Event -> AssumeRoleRequest -> BotoError + Credentials;
  bedrock_invoke_model : list Event -> InvokeModelRequest -> BotoError + Response }.

(** ** Objects, globals and the store *)

Definition addr : Type := nat.

(** instance attributes of a [TitanEmbeddings] *)
Record TitanEmbeddings : Type := {
  bedrock_boto3 : Client;
  model_id : string }.

(** class attributes of [TitanEmbeddings] *)
Record TitanEmbeddingsClass : Type := {
  cls_accept : string;
  cls_content_type : string }.

(** instance attributes of a [TitanV2Model]; [None] for [dim] is an attribute
    not assigned yet, [None] for [br_embeddings] is Python's [None]. *)
Record TitanV2Model : Type := {
  br_embeddings : option addr;
  dim : option PyVal }.

Inductive Obj : Type :=
| OTitanEmbeddings (o : TitanEmbeddings)
| OTitanV2Model (m : TitanV2Model).

(** the notebook's global names that the classes and cells read *)
Record Globals : Type := {
  boto3_bedrock_runtime : option Client;
  bedrock_embeddings : option addr;
  prompt_data : option string }.

Record Store : Type := {
  heap : list Obj;
  class_attrs : TitanEmbeddingsClass;
  globals : Globals;
  trace : list Event }.

Definition with_heap (h : list Obj) (st : Store) : Store :=
  {| heap := h; class_attrs := class_attrs st; globals := globals st; trace := trace st |}.

Definition with_globals (g : Globals) (st : Store) : Store :=
  {| heap := heap st; class_attrs := class_attrs st; globals := g; trace := trace st |}.

Definition with_trace (t : list Event) (st : Store) : Store :=
  {| heap := heap st; class_attrs := class_attrs st; globals := globals st; trace := t |}.

(** ** Computations over the world and the store *)

Definition M (A : Type) : Type := World -> Store -> Res A * Store.

Definition ret {A : Type} (a : A) : M A := fun _ st => (Ret a, st).

Definition bind {A B : Type} (m : M A) (k : A -> M B) : M B :=
  fun w st =>
    match m w st with
    | (Ret a, st') => k a w st'
    | (Raise e, st') => (Raise e, st')
    | (Unmodelled, st') => (Unmodelled, st')
    end.

Definition lift {A : Type} (r : Res A) : M A := fun _ st => (r, st).

Declare Scope m_scope.
Delimit Scope m_scope with M.
Notation "x <- c ;; k" := (bind c (fun x => k))
  (at level 100, c at next level, right associativity) : m_scope.
Notation "c ;;; k" := (bind c (fun _ => k))
  (at level 100, right associativity) : m_scope.

Definition alloc (o : Obj) : M addr :=
  fun _ st => (Ret (List.length (heap st)), with_heap (heap st ++ [o]) st).

Fixpoint update {A : Type} (n : nat) (x : A) (l : list A) : list A :=
  match n, l with
  | O, _ :: r => x :: r
  | S n', y :: r => y :: update n' x r
  | _, [] => []
  end.

(** read the instance attributes of the [TitanEmbeddings] at [a] *)
Definition get_embeddings (a : addr) : M TitanEmbeddings :=
  fun _ st =>
    match nth_error (heap st) a with
    | Some (OTitanEmbeddings o) => (Ret o, st)
    | _ => (Unmodelled, st)
    end.

Definition get_model (a : addr) : M TitanV2Model :=
  fun _ st =>
    match nth_error (heap st) a with
    | Some (OTitanV2Model m) => (Ret m, st)
    | _ => (Unmodelled, st)
    end.

Definition set_model (a : addr) (m : TitanV2Model) : M unit :=
  fun _ st => (Ret tt, with_heap (update a (OTitanV2Model m) (heap st)) st).

Definition get_class_attrs : M TitanEmbeddingsClass :=
  fun _ st => (Ret (class_attrs st), st).

(** a global name: [NameError] while it is not bound *)
Definition global {A : Type} (name : string) (field : Globals -> option A) : M A :=
  fun _ st =>
    match field (globals st) with
    | Some x => (Ret x, st)
    | None => (Raise (NameError name), st)
    end.

Definition set_globals (f : Globals -> Globals) : M unit :=
  fun _ st => (Ret tt, with_globals (f (globals st)) st).

Definition environ_get_AWS_PROFILE : M (option string) :=
  fun w st => (Ret (environ_AWS_PROFILE w), st).

(** [client.invoke_model(body=, modelId=, accept=, contentType=)]: the call is
    recorded, then answered by the SDK; an SDK exception is raised as it is. *)
Definition client_invoke_model (r : InvokeModelRequest) : M Response :=
  fun w st =>
    let st' := with_trace (trace st ++ [InvokeModel r]) st in
    match bedrock_invoke_model w (trace st) r with
    | inr response => (Ret response, st')
    | inl e => (Raise (SdkError e), st')
    end.

Definition client_assume_role (r : AssumeRoleRequest) : M Credentials :=
  fun w st =>
    let st' := with_trace (trace st ++ [AssumeRole r]) st in
    match sts_assume_role w (trace st) r with
    | inr c => (Ret c, st')
    | inl e => (Raise (SdkError e), st')
    end.

(** [response.get('body').read()] *)
Definition response_get_body_read (r : Response) : Res PyVal :=
  match response_body r with
  | Some text => Ret (PStr text)
  | None => Raise (AttributeError "read")
  end.

(** truth of an optional string argument: [None] and the empty text are false *)
Definition given (x : option string) : bool :=
  match x with
  | Some s => truthy (PStr s)
  | None => false
  end.

(** ** Cell: the boto3 client *)

(** [get_bedrock_client(assumed_role=None, region='us-east-1', runtime=True,
    external_id=None, ep_url=None)] *)
Definition get_bedrock_client (assumed_role region : option string)
  (runtime : option bool) (external_id ep_url : option string) : M Client :=
  (let target_region := region in
   let session_kwargs := {| session_region_name := target_region;
                            session_profile_name := None |} in
   let client_region := session_region_name session_kwargs in
   profile_name <- environ_get_AWS_PROFILE ;;
   let session_kwargs :=
     if given profile_name
     then {| session_region_name := target_region; session_profile_name := profile_name |}
     else session_kwargs in
   let retry_config := {| config_region_name := target_region;
                          retries_max_attempts := 10;
                          retries_mode := "standard" |} in
   let session := session_kwargs in
   client_credentials <-
     match assumed_role with
     | Some role =>
         if given assumed_role then
           response <-
             (if given external_id
              then client_assume_role {| sts_session := session; RoleArn := role;
                                         RoleSessionName := "langchain-llm-1";
                                         ExternalId := external_id |}
              else client_assume_role {| sts_session := session; RoleArn := role;
                                         RoleSessionName := "langchain-llm-1";
                                         ExternalId := None |}) ;;
           ret (Some response)
         else ret None
     | None => ret None
     end ;;
   let service_name :=
     match runtime with
     | Some true => "bedrock-runtime"
     | _ => "bedrock"
     end in
   let bedrock_client :=
     if given ep_url
     then {| session := session; service_name := service_name;
             region_name := client_region; config := Some retry_config;
             endpoint_url := ep_url; credentials := client_credentials |}
     else {| session := session; service_name := service_name;
             region_name := client_region; config := Some retry_config;
             endpoint_url := None; credentials := client_credentials |} in
   ret bedrock_client)%M.

(** [boto3.client(service_name=..., region_name=...)] on the default session *)
Definition boto3_client (service region : string) : Client :=
  {| session := {| session_region_name := None; session_profile_name := None |};
     service_name := service; region_name := Some region; config := None;
     endpoint_url := None; credentials := None |}.

(** ** Cell: the helper class *)

Definition titan_model_id : string := "amazon.titan-embed-text-v2:0".

Definition TitanEmbeddings_class : TitanEmbeddingsClass :=
  {| cls_accept := "application/json"; cls_content_type := "application/json" |}.

(** the object sent as the request body *)
Definition request_object (text dimensions normalize : PyVal) : PyVal :=
  PDict [("inputText", text); ("dimensions", dimensions); ("normalize", normalize)].

Module TitanEmbeddings.

(** [TitanEmbeddings(model_id=, boto3_client=, region_name=)] *)
Definition __init__ (model_id : string) (boto3_client_arg : option Client)
  (region_name : string) : M addr :=
  let client :=
    match boto3_client_arg with
    | Some c => c
    | None => boto3_client "bedrock-runtime" region_name
    end in
  alloc (OTitanEmbeddings {| bedrock_boto3 := client; model_id := model_id |}).

Definition __call__ (self : addr) (text dimensions normalize : PyVal) : M PyVal :=
  (let body := Json.dumps (request_object text dimensions normalize) in
   o <- get_embeddings self ;;
   c <- get_class_attrs ;;
   response <- client_invoke_model
                 {| via := bedrock_boto3 o; body := body; modelId := model_id o;
                    accept := cls_accept c; contentType := cls_content_type c |} ;;
   response_body <- lift (raw <- response_get_body_read response ;; Json.loads raw)%res ;;
   lift (Py.getitem response_body "embedding"))%M.

End TitanEmbeddings.

(** ** Cell: test connection to bedrock *)

Definition connect_cell : M unit :=
  (client <- get_bedrock_client None (Some "us-east-1") (Some true) None None ;;
   set_globals (fun g => {| boto3_bedrock_runtime := Some client;
                            bedrock_embeddings := bedrock_embeddings g;
                            prompt_data := prompt_data g |}) ;;;
   helper <- TitanEmbeddings.__init__ titan_model_id (Some client) "us-east-1" ;;
   set_globals (fun g => {| boto3_bedrock_runtime := boto3_bedrock_runtime g;
                            bedrock_embeddings := Some helper;
                            prompt_data := prompt_data g |}))%M.

(** ** Cell: generate embeddings, inline *)

Definition prompt_data_text : string :=
  "Amazon Bedrock supports foundation models from industry-leading providers such as AI21 Labs, Anthropic, Stability AI, and Amazon. Choose the model that is best suited to achieving your unique goals.".

(** the cell up to the assignment of [embedding]; its value is [embedding] *)
Definition generate_cell : M PyVal :=
  (set_globals (fun g => {| boto3_bedrock_runtime := boto3_bedrock_runtime g;
                            bedrock_embeddings := bedrock_embeddings g;
                            prompt_data := Some prompt_data_text |}) ;;;
   let modelId := "amazon.titan-embed-text-v2:0" in
   let accept := "application/json" in
   let contentType := "application/json" in
   let sample_model_input :=
     PDict [("inputText", PStr prompt_data_text); ("dimensions", PInt 256);
            ("normalize", PBool true)] in
   let body := Json.dumps sample_model_input in
   client <- global "boto3_bedrock_runtime" boto3_bedrock_runtime ;;
   response <- client_invoke_model
                 {| via := client; body := body; modelId := modelId;
                    accept := accept; contentType := contentType |} ;;
   response_body <- lift (raw <- response_get_body_read response ;; Json.loads raw)%res ;;
   lift (Py.get response_body "embedding"))%M.

(** ** Cell: the same through the helper; its value is [embedding] *)

Definition helper_cell : M PyVal :=
  (helper <- global "bedrock_embeddings" bedrock_embeddings ;;
   text <- global "prompt_data" prompt_data ;;
   TitanEmbeddings.__call__ helper (PStr text) (PInt 256) (PBool true))%M.

(** ** Cell: the benchmark adapter *)

(** [numpy.ndarray], as the list [np.array] was given *)
Inductive ndarray : Type := np_array (embedding_list : list PyVal).

Module TitanV2Model.

(** [_init_connection(self, dim=256)] *)
Definition _init_connection (self : addr) (dim_arg : PyVal) : M unit :=
  (boto3_bedrock_runtime <- get_bedrock_client None (Some "us-east-1") (Some true) None None ;;
   helper <- TitanEmbeddings.__init__ titan_model_id (Some boto3_bedrock_runtime) "us-east-1" ;;
   m <- get_model self ;;
   set_model self {| br_embeddings := Some helper; dim := dim m |} ;;;
   m <- get_model self ;;
   set_model self {| br_embeddings := br_embeddings m; dim := Some dim_arg |})%M.

(** [TitanV2Model()] *)
Definition __init__ : M addr :=
  (self <- alloc (OTitanV2Model {| br_embeddings := None; dim := None |}) ;;
   _init_connection self (PInt 256) ;;;
   ret self)%M.

Definition items (v : PyVal) : Res (list (string * PyVal)) :=
  match v with
  | PDict l => Ret l
  | _ => Raise (AttributeError "items")
  end.

(** one element of the list comprehension *)
Definition fragment (kv : string * PyVal) : string :=
  let '(key, val) := kv in
  if Str.contains "title" (Str.lower key)
  then Str.strip (Py.str (PStr key)) ++ " " ++ Str.strip (Py.str val)
  else Str.strip (Py.str val).

Definition process_dict_text (single_text_dict : PyVal) : Res PyVal :=
  (kvs <- items single_text_dict ;;
   let single_text := map fragment kvs in
   Ret (PStr (Str.slice_to 30000 (Str.join " " single_text))))%res.

Definition reorg_text (single_text : PyVal) : Res PyVal :=
  (single_text <- (if isinstance_dict single_text
                   then process_dict_text single_text
                   else Ret single_text) ;;
   let single_text := if negb (truthy single_text) then PStr "0" else single_text in
   try_except
     (single_text_dict <- Json.loads single_text ;;
      process_dict_text single_text_dict)
     (Ret single_text))%res.

(** [self.dim] *)
Definition self_dim (self : addr) : M PyVal :=
  (m <- get_model self ;;
   match dim m with
   | Some d => ret d
   | None => lift (Raise (AttributeError "dim"))
   end)%M.

(** the [for] loop of [invoke_model], with [list_embeddings] so far *)
Fixpoint invoke_model_loop (self : addr) (text_list list_embeddings : list PyVal)
  : M (list PyVal) :=
  match text_list with
  | [] => ret list_embeddings
  | single_text :: rest =>
      (single_text <- lift (reorg_text single_text) ;;
       helper <- global "bedrock_embeddings" bedrock_embeddings ;;
       d <- self_dim self ;;
       single_embed <- TitanEmbeddings.__call__ helper single_text d (PBool true) ;;
       invoke_model_loop self rest (list_embeddings ++ [single_embed]))%M
  end.

Definition invoke_model (self : addr) (text_list : list PyVal) : M (list PyVal) :=
  invoke_model_loop self text_list [].

Definition reshape_titan_embeddings (query_embeddings : ndarray) : ndarray :=
  query_embeddings.

Definition encode (self : addr) (queries : list PyVal) : M ndarray :=
  (embedding_list <- invoke_model self queries ;;
   ret (reshape_titan_embeddings (np_array embedding_list)))%M.

Definition encode_queries (self : addr) (queries : list PyVal) : M ndarray :=
  (embedding_list <- invoke_model self queries ;;
   ret (reshape_titan_embeddings (np_array embedding_list)))%M.

Definition encode_corpus (self : addr) (corpus : list PyVal) : M ndarray :=
  (embedding_list <- invoke_model self corpus ;;
   ret (reshape_titan_embeddings (np_array embedding_list)))%M.

End TitanV2Model.

(** ** Cell: [final_output = TitanV2Model().encode_queries(["this is a test"])] *)

Definition final_output_cell : M ndarray :=
  (model <- TitanV2Model.__init__ ;;
   TitanV2Model.encode_queries model [PStr "this is a test"])%M.

(** the store of a fresh kernel, after the helper class cell has run *)
Definition fresh_store : Store :=
  {| heap := [];
     class_attrs := TitanEmbeddings_class;
     globals := {| boto3_bedrock_runtime := None; bedrock_embeddings := None;
                   prompt_data := None |};
     trace := [] |}.

(** * Vocabulary of the statements *)

(** the request [__call__] builds from the instance, the class and its
    arguments *)
Definition helper_request (o : TitanEmbeddings) (c : TitanEmbeddingsClass)
  (text dimensions normalize : PyVal) : InvokeModelRequest :=
  {| via := bedrock_boto3 o;
     body := Json.dumps (PDict [("inputText", text); ("dimensions", dimensions);
                                ("normalize", normalize)]);
     modelId := model_id o;
     accept := cls_accept c;
     contentType := cls_content_type c |}.

(** reading the embedding out of a response: body, [json.loads], ['embedding'] *)
Definition parse_response (r : Response) : Res PyVal :=
  (raw <- response_get_body_read r ;;
   response_body <- Json.loads raw ;;
   Py.getitem response_body "embedding")%res.

(** the outcome of [__call__] for an answer of the SDK *)
Definition outcome (a : BotoError + Response) : Res PyVal :=
  match a with
  | inl e => Raise (SdkError e)
  | inr r => parse_response r
  end.

Definition is_embeddings (st : Store) (a : addr) (o : TitanEmbeddings) : Prop :=
  nth_error (heap st) a = Some (OTitanEmbeddings o).

Definition is_model (st : Store) (a : addr) (m : TitanV2Model) : Prop :=
  nth_error (heap st) a = Some (OTitanV2Model m).

(** The requests and embeddings of a run of [invoke_model] that serves every
    text: in list order, the request for [reorg_text] of the text, built with
    the instance's [dim] and [normalize=True], and the embedding read from the
    SDK's answer to it. *)
Fixpoint served (w : World) (o : TitanEmbeddings) (c : TitanEmbeddingsClass)
  (d : PyVal) (tr : list Event) (texts : list PyVal)
  (reqs : list InvokeModelRequest) (embs : list PyVal) : Prop :=
  match texts, reqs, embs with
  | [], [], [] => True
  | x :: texts', q :: reqs', e :: embs' =>
      (exists t, TitanV2Model.reorg_text x = Ret t
                 /\ q = helper_request o c t d (PBool true))
      /\ outcome (bedrock_invoke_model w tr q) = Ret e
      /\ served w o c d (tr ++ [InvokeModel q]) texts' reqs' embs'
  | _, _, _ => False
  end.

(** a store in which [invoke_model] on [self] finds what it reads: the global
    [bedrock_embeddings] bound to the helper object [o], and [self.dim] set
    to [d] *)
Definition ready (st : Store) (self : addr) (o : TitanEmbeddings) (d : PyVal) : Prop :=
  (exists helper, bedrock_embeddings (globals st) = Some helper
                  /\ is_embeddings st helper o)
  /\ exists m, is_model st self m /\ dim m = Some d.

(** the output dimension a request asks for, as the endpoint reads it from
    the body *)
Definition request_dimensions (r : InvokeModelRequest) : Res PyVal :=
  (obj <- Json.decode (body r) ;; Py.getitem obj "dimensions")%res.

Definition allowed_dimension (v : PyVal) : Prop :=
  v = PInt 256 \/ v = PInt 512 \/ v = PInt 1024.

Definition asks_allowed_dimension (ev : Event) : Prop :=
  match ev with
  | InvokeModel r => exists d, request_dimensions r = Ret d /\ allowed_dimension d
  | AssumeRole _ => True
  end.

(** the client [get_bedrock_client()] returns with its default arguments *)
Definition default_client (w : World) : Client :=
  {| session := {| session_region_name := Some "us-east-1";
                   session_profile_name :=
                     if given (environ_AWS_PROFILE w) then environ_AWS_PROFILE w
                     else None |};
     service_name := "bedrock-runtime";
     region_name := Some "us-east-1";
     config := Some {| config_region_name := Some "us-east-1";
                       retries_max_attempts := 10;
                       retries_mode := "standard" |};
     endpoint_url := None;
     credentials := None |}.

(** ** Worlds and stores to run the cells in *)

(** a service that answers every request with the same embedding *)
Definition steady_world (embedding : PyVal) : World :=
  {| environ_AWS_PROFILE := None;
     sts_assume_role := fun _ _ => inl (ClientError "AccessDenied");
     bedrock_invoke_model := fun _ _ =>
       inr {| response_body := Some (Json.dumps (PDict [("embedding", embedding)])) |} |}.

(** a service that answers its k-th request with the one-element embedding [k] *)
Definition counting_world : World :=
  {| environ_AWS_PROFILE := None;
     sts_assume_role := fun _ _ => inl (ClientError "AccessDenied");
     bedrock_invoke_model := fun tr _ =>
       inr {| response_body :=
                Some (Json.dumps (PDict [("embedding", PList [PInt (Z.of_nat (List.length tr))])])) |} |}.

(** a service that throttles every request *)
Definition throttling_world : World :=
  {| environ_AWS_PROFILE := None;
     sts_assume_role := fun _ _ => inl (ClientError "AccessDenied");
     bedrock_invoke_model := fun _ _ => inl (ClientError "ThrottlingException") |}.

Definition sample_embedding : PyVal :=
  PList [PFloat (FDec false 5 (-1)); PFloat (FDec true 25 (-2)); PFloat (FDec false 125 (-3))].

(** the store after the connection cell, in a world that needs no profile *)
Definition connected_store : Store :=
  snd (connect_cell (steady_world sample_embedding) fresh_store).

(** the helper object the connection cell binds to [bedrock_embeddings] *)
Definition connected_helper : TitanEmbeddings :=
  {| bedrock_boto3 := default_client (steady_world sample_embedding);
     model_id := titan_model_id |}.

(** the store after two [TitanV2Model()] on top of that *)
Definition two_models_store : Store :=
  snd ((_ <- TitanV2Model.__init__ ;; TitanV2Model.__init__)%M
         (steady_world sample_embedding) connected_store).

(** * Properties *)

Local Open Scope list_scope.

(** ** What one helper call does *)

Lemma call_run (w : World) (st : Store) (self : addr) (o : TitanEmbeddings)
  (text dimensions normalize : PyVal) :
  is_embeddings st self o ->
  let q := helper_request o (class_attrs st) text dimensions normalize in
  TitanEmbeddings.__call__ self text dimensions normalize w st
  = (outcome (bedrock_invoke_model w (trace st) q),
     with_trace (trace st ++ [InvokeModel q]) st).
Proof.
  intros Hself q. subst q.
  unfold TitanEmbeddings.__call__, bind, get_embeddings, get_class_attrs,
    client_invoke_model, lift, helper_request, request_object.
  unfold is_embeddings in Hself. rewrite Hself. cbn [class_attrs with_trace].
  destruct (bedrock_invoke_model w (trace st) _) as [e | r]; cbn [outcome].
  - reflexivity.
  - unfold parse_response.
    destruct (response_get_body_read r) as [raw | x | ]; cbn [rbind];
      [ destruct (Json.loads raw); reflexivity | reflexivity | reflexivity ].
Qed.

Lemma call_run_stray (w : World) (st : Store) (self : addr)
  (text dimensions normalize : PyVal) :
  (forall o, ~ is_embeddings st self o) ->
  TitanEmbeddings.__call__ self text dimensions normalize w st = (Unmodelled, st).
Proof.
  intros Hno.
  unfold TitanEmbeddings.__call__, bind, get_embeddings.
  destruct (nth_error (heap st) self) as [[o | m] | ] eqn:E; try reflexivity.
  exfalso. apply (Hno o). exact E.
Qed.

(** ** The loop of [invoke_model] *)

Lemma with_trace_twice (t t' : list Event) (st : Store) :
  with_trace t (with_trace t' st) = with_trace t st.
Proof. reflexivity. Qed.

Lemma with_trace_same (st : Store) : with_trace (trace st) st = st.
Proof. destruct st; reflexivity. Qed.

Lemma ready_with_trace (t : list Event) (st : Store) (self : addr)
  (o : TitanEmbeddings) (d : PyVal) :
  ready st self o d -> ready (with_trace t st) self o d.
Proof. intros H; exact H. Qed.

(** one turn of the loop *)
Lemma loop_step (w : World) (st : Store) (self : addr) (o : TitanEmbeddings)
  (d x : PyVal) (rest acc : list PyVal) :
  ready st self o d ->
  TitanV2Model.invoke_model_loop self (x :: rest) acc w st
  = match TitanV2Model.reorg_text x with
    | Ret t =>
        let q := helper_request o (class_attrs st) t d (PBool true) in
        let st1 := with_trace (trace st ++ [InvokeModel q]) st in
        match outcome (bedrock_invoke_model w (trace st) q) with
        | Ret e => TitanV2Model.invoke_model_loop self rest (acc ++ [e]) w st1
        | Raise ex => (Raise ex, st1)
        | Unmodelled => (Unmodelled, st1)
        end
    | Raise ex => (Raise ex, st)
    | Unmodelled => (Unmodelled, st)
    end.
Proof.
  intros [[helper [Hg Hh]] [m [Hm Hd]]].
  cbn [TitanV2Model.invoke_model_loop].
  unfold bind at 1. unfold lift at 1.
  destruct (TitanV2Model.reorg_text x) as [t | ex | ]; try reflexivity.
  unfold bind at 1. unfold global at 1. rewrite Hg.
  unfold bind at 1. unfold TitanV2Model.self_dim at 1.
  unfold bind at 1. unfold get_model at 1.
  unfold is_model in Hm. rewrite Hm. rewrite Hd. unfold ret at 1.
  unfold bind at 1.
  rewrite (call_run w st helper o t d (PBool true) Hh).
  cbv zeta.
  destruct (outcome _); reflexivity.
Qed.

Lemma served_lengths (w : World) (o : TitanEmbeddings) (c : TitanEmbeddingsClass)
  (d : PyVal) (texts : list PyVal) :
  forall (tr : list Event) (reqs : list InvokeModelRequest) (embs : list PyVal),
    served w o c d tr texts reqs embs ->
    List.length reqs = List.length texts /\ List.length embs = List.length texts.
Proof.
  induction texts as [ | x texts IH]; intros tr reqs embs H.
  - destruct reqs, embs; cbn in H; try contradiction. split; reflexivity.
  - destruct reqs as [ | q reqs]; [cbn in H; contradiction | ].
    destruct embs as [ | e embs]; [cbn in H; contradiction | ].
    cbn in H. destruct H as [_ [_ H]].
    destruct (IH _ _ _ H) as [H1 H2]. cbn. split; congruence.
Qed.

(** a run of the loop returns exactly when every text is served *)
Lemma loop_served (w : World) (self : addr) (o : TitanEmbeddings) (d : PyVal)
  (texts : list PyVal) :
  forall (acc : list PyVal) (st : Store) (result : list PyVal) (st' : Store),
    ready st self o d ->
    TitanV2Model.invoke_model_loop self texts acc w st = (Ret result, st')
    <-> exists reqs embs,
          result = acc ++ embs
          /\ st' = with_trace (trace st ++ map InvokeModel reqs) st
          /\ served w o (class_attrs st) d (trace st) texts reqs embs.
Proof.
  induction texts as [ | x texts IH]; intros acc st result st' Hready.
  - cbn [TitanV2Model.invoke_model_loop]. unfold ret. split.
    + intros H. inversion H; subst. exists [], []. cbn [map served].
      rewrite !app_nil_r. rewrite with_trace_same. split; [ | split]; reflexivity || exact I.
    + intros [reqs [embs [Hr [Hs Hsv]]]].
      destruct reqs, embs; cbn in Hsv; try contradiction.
      subst. cbn [map]. rewrite !app_nil_r. rewrite with_trace_same. reflexivity.
  - rewrite (loop_step w st self o d x texts acc Hready).
    destruct (TitanV2Model.reorg_text x) as [t | ex | ] eqn:Et.
    + cbv zeta.
      set (q := helper_request o (class_attrs st) t d (PBool true)).
      set (st1 := with_trace (trace st ++ [InvokeModel q]) st).
      destruct (outcome (bedrock_invoke_model w (trace st) q)) as [e | ex | ] eqn:Eo.
      * rewrite (IH (acc ++ [e]) st1 result st' (ready_with_trace _ st self o d Hready)).
        split.
        -- intros [reqs [embs [Hr [Hs Hsv]]]].
           exists (q :: reqs), (e :: embs). split; [ | split].
           ++ rewrite Hr. rewrite <- app_assoc. reflexivity.
           ++ rewrite Hs. unfold st1. rewrite with_trace_twice.
              cbn [trace with_trace map]. rewrite <- app_assoc. reflexivity.
           ++ cbn [served]. split; [ | split].
              ** exists t. split; [exact Et | reflexivity].
              ** exact Eo.
              ** exact Hsv.
        -- intros [reqs [embs [Hr [Hs Hsv]]]].
           destruct reqs as [ | q' reqs]; [cbn in Hsv; contradiction | ].
           destruct embs as [ | e' embs]; [cbn in Hsv; contradiction | ].
           cbn [served] in Hsv. destruct Hsv as [[t' [Ht' Hq']] [Ho' Hsv]].
           assert (t' = t) by congruence. subst t'.
           assert (q' = q) by (subst q'; reflexivity). subst q'.
           assert (e' = e) by congruence. subst e'.
           exists reqs, embs. split; [ | split].
           ++ rewrite Hr. rewrite <- app_assoc. reflexivity.
           ++ rewrite Hs. unfold st1. rewrite with_trace_twice.
              cbn [trace with_trace map]. rewrite <- app_assoc. reflexivity.
           ++ exact Hsv.
      * split; [intros H; discriminate | ].
        intros [reqs [embs [_ [_ Hsv]]]].
        destruct reqs as [ | q' reqs]; [cbn in Hsv; contradiction | ].
        destruct embs as [ | e' embs]; [cbn in Hsv; contradiction | ].
        cbn [served] in Hsv. destruct Hsv as [[t' [Ht' Hq']] [Ho' _]].
        assert (t' = t) by congruence. subst t'. subst q'. fold q in Ho'. congruence.
      * split; [intros H; discriminate | ].
        intros [reqs [embs [_ [_ Hsv]]]].
        destruct reqs as [ | q' reqs]; [cbn in Hsv; contradiction | ].
        destruct embs as [ | e' embs]; [cbn in Hsv; contradiction | ].
        cbn [served] in Hsv. destruct Hsv as [[t' [Ht' Hq']] [Ho' _]].
        assert (t' = t) by congruence. subst t'. subst q'. fold q in Ho'. congruence.
    + split; [intros H; discriminate | ].
      intros [reqs [embs [_ [_ Hsv]]]].
      destruct reqs as [ | q' reqs]; [cbn in Hsv; contradiction | ].
      destruct embs as [ | e' embs]; [cbn in Hsv; contradiction | ].
      cbn [served] in Hsv. destruct Hsv as [[t' [Ht' _]] _]. congruence.
    + split; [intros H; discriminate | ].
      intros [reqs [embs [_ [_ Hsv]]]].
      destruct reqs as [ | q' reqs]; [cbn in Hsv; contradiction | ].
      destruct embs as [ | e' embs]; [cbn in Hsv; contradiction | ].
      cbn [served] in Hsv. destruct Hsv as [[t' [Ht' _]] _]. congruence.
Qed.

(** the loop over a list in two parts *)
Lemma loop_app (w : World) (self : addr) (pre post : list PyVal) :
  forall (acc : list PyVal) (st : Store),
    TitanV2Model.invoke_model_loop self (pre ++ post) acc w st
    = match TitanV2Model.invoke_model_loop self pre acc w st with
      | (Ret result, st1) => TitanV2Model.invoke_model_loop self post result w st1
      | (Raise ex, st1) => (Raise ex, st1)
      | (Unmodelled, st1) => (Unmodelled, st1)
      end.
Proof.
  induction pre as [ | x pre IH]; intros acc st.
  - reflexivity.
  - cbn [app TitanV2Model.invoke_model_loop]. unfold bind.
    destruct (lift (TitanV2Model.reorg_text x) w st) as [[t | ex | ] s0];
      try reflexivity.
    destruct (global _ _ w s0) as [[h | ex | ] s1]; try reflexivity.
    destruct (TitanV2Model.self_dim self w s1) as [[dd | ex | ] s2]; try reflexivity.
    destruct (TitanEmbeddings.__call__ h t dd (PBool true) w s2) as [[e | ex | ] s3];
      try reflexivity.
    apply IH.
Qed.

(** the i-th text, request and embedding of a served run *)
Lemma served_nth (w : World) (o : TitanEmbeddings) (c : TitanEmbeddingsClass)
  (d : PyVal) (texts : list PyVal) :
  forall (tr : list Event) (reqs : list InvokeModelRequest) (embs : list PyVal)
         (i : nat) (x : PyVal),
    served w o c d tr texts reqs embs ->
    nth_error texts i = Some x ->
    exists t q e,
      TitanV2Model.reorg_text x = Ret t
      /\ nth_error reqs i = Some q
      /\ q = helper_request o c t d (PBool true)
      /\ nth_error embs i = Some e
      /\ outcome (bedrock_invoke_model w (tr ++ map InvokeModel (firstn i reqs)) q) = Ret e.
Proof.
  induction texts as [ | y texts IH]; intros tr reqs embs i x Hsv Hi.
  - destruct i; discriminate.
  - destruct reqs as [ | q reqs]; [cbn in Hsv; contradiction | ].
    destruct embs as [ | e embs]; [cbn in Hsv; contradiction | ].
    cbn [served] in Hsv. destruct Hsv as [[t [Ht Hq]] [Ho Hsv]].
    destruct i as [ | i].
    + cbn in Hi. inversion Hi; subst y. exists t, q, e.
      cbn [nth_error firstn map]. rewrite app_nil_r. repeat split; assumption.
    + cbn in Hi. destruct (IH _ _ _ i x Hsv Hi) as [t' [q' [e' [H1 [H2 [H3 [H4 H5]]]]]]].
      exists t', q', e'. cbn [nth_error firstn map].
      rewrite <- app_assoc in H5. cbn [app] in H5. repeat split; assumption.
Qed.

(** the store of a run changes in its trace only *)
Lemma call_frame (w : World) (st : Store) (self : addr)
  (text dimensions normalize : PyVal) :
  exists t, snd (TitanEmbeddings.__call__ self text dimensions normalize w st)
            = with_trace t st.
Proof.
  destruct (nth_error (heap st) self) as [[o | m] | ] eqn:E.
  - rewrite (call_run w st self o text dimensions normalize E). eexists; reflexivity.
  - rewrite call_run_stray.
    + exists (trace st). symmetry. apply with_trace_same.
    + intros o H. unfold is_embeddings in H. congruence.
  - rewrite call_run_stray.
    + exists (trace st). symmetry. apply with_trace_same.
    + intros o H. unfold is_embeddings in H. congruence.
Qed.

(** ** The request of one helper call *)

(** C1: every call [TitanEmbeddings.__call__(text, dimensions, normalize)] on
    an instance adds exactly one [invoke_model] call to the trace of SDK calls,
    and the body of that call is [json.dumps] of the object with the three
    fields [inputText], [dimensions], [normalize], in this order and nothing
    else; the other keyword arguments are the instance's client and model id
    and the class's accept and content type. *)
Theorem C1_call_sends_one_three_field_request
  (w : World) (st : Store) (self : addr) (o : TitanEmbeddings)
  (text dimensions normalize : PyVal) :
  is_embeddings st self o ->
  trace (snd (TitanEmbeddings.__call__ self text dimensions normalize w st))
  = trace st
    ++ [InvokeModel
          {| via := bedrock_boto3 o;
             body := Json.dumps (PDict [("inputText", text);
                                        ("dimensions", dimensions);
                                        ("normalize", normalize)]);
             modelId := model_id o;
             accept := cls_accept (class_attrs st);
             contentType := cls_content_type (class_attrs st) |}].
Proof.
  intros Hself.
  rewrite (call_run w st self o text dimensions normalize Hself).
  reflexivity.
Qed.

Lemma C1_witness :
  is_embeddings connected_store 0%nat connected_helper
  /\ trace (snd (TitanEmbeddings.__call__ 0%nat (PStr "hi") (PInt 256) (PBool true)
                   (steady_world sample_embedding) connected_store))
     = trace connected_store
       ++ [InvokeModel
             {| via := bedrock_boto3 connected_helper;
                body := Json.dumps (PDict [("inputText", PStr "hi");
                                           ("dimensions", PInt 256);
                                           ("normalize", PBool true)]);
                modelId := model_id connected_helper;
                accept := cls_accept (class_attrs connected_store);
                contentType := cls_content_type (class_attrs connected_store) |}].
Proof.
  split.
  - reflexivity.
  - apply (C1_call_sends_one_three_field_request
             (steady_world sample_embedding) connected_store 0%nat connected_helper).
    reflexivity.
Defined.

(** The body of that call, read back: an object with the three keys. *)
Example call_body_hi :
  Json.decode (Json.dumps (PDict [("inputText", PStr "hi"); ("dimensions", PInt 256);
                                  ("normalize", PBool true)]))
  = Ret (PDict [("inputText", PStr "hi"); ("dimensions", PInt 256);
                ("normalize", PBool true)]).
Proof. vm_compute. reflexivity. Qed.

(** ** The result of one helper call *)

(** C2: when the SDK answers with a response whose body parses as JSON and
    has an [embedding] entry, [__call__] returns that entry as it is; so a
    list of [d] elements in the response is a list of [d] elements in the
    result, for the requested dimension [d]. *)
Theorem C2_call_returns_the_embedding_field
  (w : World) (st : Store) (self : addr) (o : TitanEmbeddings)
  (text dimensions normalize : PyVal)
  (r : Response) (raw : string) (parsed embedding : PyVal) :
  is_embeddings st self o ->
  bedrock_invoke_model w (trace st)
    (helper_request o (class_attrs st) text dimensions normalize) = inr r ->
  response_body r = Some raw ->
  Json.loads (PStr raw) = Ret parsed ->
  Py.getitem parsed "embedding" = Ret embedding ->
  fst (TitanEmbeddings.__call__ self text dimensions normalize w st) = Ret embedding
  /\ forall (items : list PyVal) (d : Z),
       embedding = PList items ->
       dimensions = PInt d ->
       Z.of_nat (List.length items) = d ->
       exists items',
         fst (TitanEmbeddings.__call__ self text dimensions normalize w st)
         = Ret (PList items')
         /\ Z.of_nat (List.length items') = d.
Proof.
  intros Hself Hans Hbody Hloads Hget.
  assert (Hres : fst (TitanEmbeddings.__call__ self text dimensions normalize w st)
                 = Ret embedding).
  { rewrite (call_run w st self o text dimensions normalize Hself).
    cbn [fst]. rewrite Hans. cbn [outcome].
    unfold parse_response, response_get_body_read. rewrite Hbody.
    cbn [rbind]. rewrite Hloads. cbn [rbind]. exact Hget. }
  split; [exact Hres | ].
  intros items d He Hd Hlen. exists items. subst embedding. split; assumption.
Qed.

Lemma C2_witness :
  fst (TitanEmbeddings.__call__ 0%nat (PStr "hi") (PInt 3) (PBool true)
         (steady_world sample_embedding) connected_store)
  = Ret sample_embedding.
Proof.
  refine (proj1 (C2_call_returns_the_embedding_field
                   (steady_world sample_embedding) connected_store 0%nat connected_helper
                   (PStr "hi") (PInt 3) (PBool true)
                   {| response_body :=
                        Some (Json.dumps (PDict [("embedding", sample_embedding)])) |}
                   (Json.dumps (PDict [("embedding", sample_embedding)]))
                   (PDict [("embedding", sample_embedding)])
                   sample_embedding _ _ _ _ _)); vm_compute; reflexivity.
Defined.

(** ** The helper call leaves its instance alone *)

(** C6: a call of [__call__] changes no object, class attribute or global
    name: the instance's [model_id] and [bedrock_boto3] and the class's
    [accept] and [content_type] are after the call what they were before, and
    a second call with the same arguments issues the same request as the
    first. *)
Theorem C6_call_modifies_no_attribute
  (w : World) (st : Store) (self : addr) (o : TitanEmbeddings)
  (text dimensions normalize : PyVal) :
  is_embeddings st self o ->
  let st1 := snd (TitanEmbeddings.__call__ self text dimensions normalize w st) in
  let st2 := snd (TitanEmbeddings.__call__ self text dimensions normalize w st1) in
  is_embeddings st1 self o
  /\ heap st1 = heap st
  /\ class_attrs st1 = class_attrs st
  /\ globals st1 = globals st
  /\ exists q,
       trace st1 = trace st ++ [InvokeModel q]
       /\ trace st2 = trace st1 ++ [InvokeModel q].
Proof.
  intros Hself st1 st2.
  assert (E1 : st1 = with_trace
                       (trace st ++ [InvokeModel
                          (helper_request o (class_attrs st) text dimensions normalize)]) st).
  { unfold st1. rewrite (call_run w st self o text dimensions normalize Hself).
    reflexivity. }
  assert (Hself1 : is_embeddings st1 self o) by (rewrite E1; exact Hself).
  assert (E2 : st2 = with_trace
                       (trace st1 ++ [InvokeModel
                          (helper_request o (class_attrs st1) text dimensions normalize)]) st1).
  { unfold st2. rewrite (call_run w st1 self o text dimensions normalize Hself1).
    reflexivity. }
  repeat split; try (rewrite E1; reflexivity); try exact Hself1.
  exists (helper_request o (class_attrs st) text dimensions normalize).
  split.
  - rewrite E1. reflexivity.
  - rewrite E2. cbn [trace with_trace]. rewrite E1. reflexivity.
Qed.

Lemma C6_witness :
  let w := counting_world in
  let st1 := snd (TitanEmbeddings.__call__ 0%nat (PStr "hi") (PInt 256) (PBool true)
                    w connected_store) in
  let st2 := snd (TitanEmbeddings.__call__ 0%nat (PStr "hi") (PInt 256) (PBool true) w st1) in
  is_embeddings st1 0%nat connected_helper
  /\ heap st1 = heap connected_store
  /\ class_attrs st1 = class_attrs connected_store
  /\ globals st1 = globals connected_store
  /\ exists q,
       trace st1 = trace connected_store ++ [InvokeModel q]
       /\ trace st2 = trace st1 ++ [InvokeModel q].
Proof.
  apply (C6_call_modifies_no_attribute counting_world connected_store 0%nat connected_helper).
  reflexivity.
Defined.

(** ** One remote call per text *)

(** C5: on a store where [invoke_model] finds the helper and [self.dim], a
    run over [n] texts returns a list exactly when each text is served in
    turn: the run then issued [n] [invoke_model] calls and nothing else, the
    i-th call is the helper's request for [reorg_text] of the i-th text, each
    call is issued after the answer to the one before, and the i-th element
    of the returned list is the embedding read from the answer to the i-th
    call. *)
Theorem C5_invoke_model_calls_once_per_text
  (w : World) (st : Store) (self : addr) (o : TitanEmbeddings) (d : PyVal)
  (texts embs : list PyVal) (st' : Store) :
  ready st self o d ->
  (TitanV2Model.invoke_model self texts w st = (Ret embs, st')
   <-> exists reqs,
         st' = with_trace (trace st ++ map InvokeModel reqs) st
         /\ served w o (class_attrs st) d (trace st) texts reqs embs)
  /\ (TitanV2Model.invoke_model self texts w st = (Ret embs, st') ->
      List.length embs = List.length texts
      /\ exists reqs,
           trace st' = trace st ++ map InvokeModel reqs
           /\ List.length reqs = List.length texts
           /\ forall i x,
                nth_error texts i = Some x ->
                exists t q e,
                  TitanV2Model.reorg_text x = Ret t
                  /\ nth_error reqs i = Some q
                  /\ q = helper_request o (class_attrs st) t d (PBool true)
                  /\ nth_error embs i = Some e
                  /\ outcome (bedrock_invoke_model w
                                (trace st ++ map InvokeModel (firstn i reqs)) q)
                     = Ret e).
Proof.
  intros Hready.
  assert (Hiff :
    TitanV2Model.invoke_model self texts w st = (Ret embs, st')
    <-> exists reqs,
          st' = with_trace (trace st ++ map InvokeModel reqs) st
          /\ served w o (class_attrs st) d (trace st) texts reqs embs).
  { unfold TitanV2Model.invoke_model.
    rewrite (loop_served w self o d texts [] st embs st' Hready).
    split.
    - intros [reqs [embs' [Hr [Hs Hsv]]]]. cbn [app] in Hr. subst embs'.
      exists reqs. split; assumption.
    - intros [reqs [Hs Hsv]]. exists reqs, embs. repeat split; assumption. }
  split; [exact Hiff | ].
  intros Hrun. apply Hiff in Hrun. destruct Hrun as [reqs [Hs Hsv]].
  destruct (served_lengths _ _ _ _ _ _ _ _ Hsv) as [Hl1 Hl2].
  split; [exact Hl2 | ].
  exists reqs. split; [rewrite Hs; reflexivity | ]. split; [exact Hl1 | ].
  intros i x Hi. exact (served_nth _ _ _ _ _ _ _ _ i x Hsv Hi).
Qed.

Lemma C5_witness :
  let texts := [PStr "a"; PNone] in
  let run := TitanV2Model.invoke_model 1%nat texts counting_world two_models_store in
  ready two_models_store 1%nat connected_helper (PInt 256)
  /\ fst run = Ret [PList [PInt 0]; PList [PInt 1]]
  /\ List.length [PList [PInt 0]; PList [PInt 1]] = List.length texts.
Proof.
  intros texts run.
  assert (Hready : ready two_models_store 1%nat connected_helper (PInt 256)).
  { split.
    - exists 0%nat. split; reflexivity.
    - eexists. split; reflexivity. }
  assert (Hrun : TitanV2Model.invoke_model 1%nat texts counting_world two_models_store
                 = (Ret [PList [PInt 0]; PList [PInt 1]], snd run)).
  { vm_compute. reflexivity. }
  split; [exact Hready | ]. split; [vm_compute; reflexivity | ].
  exact (proj1 (proj2 (C5_invoke_model_calls_once_per_text
                         counting_world two_models_store 1%nat connected_helper
                         (PInt 256) texts [PList [PInt 0]; PList [PInt 1]] (snd run)
                         Hready) Hrun)).
Defined.

(** ** Exceptions of the SDK *)

Lemma get_bedrock_client_config (w : World) (st : Store)
  (assumed_role region : option string) (runtime : option bool)
  (external_id ep_url : option string) (c : Client) (st' : Store) :
  get_bedrock_client assumed_role region runtime external_id ep_url w st = (Ret c, st') ->
  config c = Some {| config_region_name := region;
                     retries_max_attempts := 10;
                     retries_mode := "standard" |}.
Proof.
  unfold get_bedrock_client, bind, environ_get_AWS_PROFILE, ret, client_assume_role.
  intros H.
  destruct assumed_role as [role | ]; cbn [given] in H.
  - destruct (truthy (PStr role)).
    + destruct (given external_id);
        destruct (sts_assume_role w (trace st) _); try discriminate;
        destruct (given ep_url); inversion H; reflexivity.
    + destruct (given ep_url); inversion H; reflexivity.
  - destruct (given ep_url); inversion H; reflexivity.
Qed.

(** C4: an exception of the SDK leaves [__call__] and [invoke_model] as the
    SDK raised it.  (1) When the SDK raises [e] on the request of a call,
    [__call__] raises [e], and the trace holds that one attempt and no other.
    (2) [__call__] raises exactly when the SDK call raises or reading the
    embedding out of the response raises.  (3) When the texts before [x] were
    served and the SDK raises [e] on the request for [x], [invoke_model]
    raises [e] and issues no call after it.  (4) A client made by
    [get_bedrock_client] carries the retry configuration of 10 attempts in
    standard mode, whatever the arguments. *)
Theorem C4_sdk_exceptions_propagate :
  (forall (w : World) (st : Store) (self : addr) (o : TitanEmbeddings)
          (text dimensions normalize : PyVal) (e : BotoError),
      is_embeddings st self o ->
      let q := helper_request o (class_attrs st) text dimensions normalize in
      bedrock_invoke_model w (trace st) q = inl e ->
      TitanEmbeddings.__call__ self text dimensions normalize w st
      = (Raise (SdkError e), with_trace (trace st ++ [InvokeModel q]) st))
  /\ (forall (w : World) (st : Store) (self : addr) (o : TitanEmbeddings)
             (text dimensions normalize : PyVal),
         is_embeddings st self o ->
         let q := helper_request o (class_attrs st) text dimensions normalize in
         raises (fst (TitanEmbeddings.__call__ self text dimensions normalize w st))
         <-> (exists e, bedrock_invoke_model w (trace st) q = inl e)
             \/ (exists r, bedrock_invoke_model w (trace st) q = inr r
                           /\ raises (parse_response r)))
  /\ (forall (w : World) (st : Store) (self : addr) (o : TitanEmbeddings) (d : PyVal)
             (pre post : list PyVal) (x t : PyVal)
             (reqs : list InvokeModelRequest) (embs : list PyVal) (e : BotoError),
         ready st self o d ->
         served w o (class_attrs st) d (trace st) pre reqs embs ->
         TitanV2Model.reorg_text x = Ret t ->
         let q := helper_request o (class_attrs st) t d (PBool true) in
         bedrock_invoke_model w (trace st ++ map InvokeModel reqs) q = inl e ->
         TitanV2Model.invoke_model self (pre ++ x :: post) w st
         = (Raise (SdkError e),
            with_trace (trace st ++ map InvokeModel reqs ++ [InvokeModel q]) st))
  /\ (forall (w : World) (st : Store)
             (assumed_role region : option string) (runtime : option bool)
             (external_id ep_url : option string) (c : Client) (st' : Store),
         get_bedrock_client assumed_role region runtime external_id ep_url w st
         = (Ret c, st') ->
         exists cfg, config c = Some cfg
                     /\ retries_max_attempts cfg = 10
                     /\ retries_mode cfg = "standard"%string).
Proof.
  split; [ | split; [ | split]].
  - intros w st self o text dimensions normalize e Hself q Hq.
    rewrite (call_run w st self o text dimensions normalize Hself).
    fold q. rewrite Hq. reflexivity.
  - intros w st self o text dimensions normalize Hself q.
    rewrite (call_run w st self o text dimensions normalize Hself).
    fold q. cbn [fst]. unfold raises.
    destruct (bedrock_invoke_model w (trace st) q) as [e | r]; cbn [outcome]; split.
    + intros _. left. exists e. reflexivity.
    + intros _. exists (SdkError e). reflexivity.
    + intros H. right. exists r. split; [reflexivity | exact H].
    + intros [[e He] | [r' [Hr' H]]]; [discriminate | ].
      inversion Hr'; subst r'. exact H.
  - intros w st self o d pre post x t reqs embs e Hready Hsv Ht q Hq.
    unfold TitanV2Model.invoke_model. rewrite loop_app.
    assert (Hpre : TitanV2Model.invoke_model_loop self pre [] w st
                   = (Ret embs, with_trace (trace st ++ map InvokeModel reqs) st)).
    { apply (loop_served w self o d pre [] st _ _ Hready).
      exists reqs, embs. repeat split. exact Hsv. }
    rewrite Hpre.
    rewrite (loop_step w _ self o d x post embs
               (ready_with_trace _ st self o d Hready)).
    rewrite Ht. cbv zeta. cbn [trace class_attrs with_trace]. fold q.
    rewrite Hq. cbn [outcome]. rewrite <- app_assoc. reflexivity.
  - intros w st assumed_role region runtime external_id ep_url c st' H.
    eexists. split; [exact (get_bedrock_client_config _ _ _ _ _ _ _ _ _ H) | ].
    split; reflexivity.
Qed.

Lemma C4_witness :
  TitanEmbeddings.__call__ 0%nat (PStr "hi") (PInt 256) (PBool true)
    throttling_world connected_store
  = (Raise (SdkError (ClientError "ThrottlingException")),
     with_trace
       (trace connected_store
        ++ [InvokeModel (helper_request connected_helper (class_attrs connected_store)
                           (PStr "hi") (PInt 256) (PBool true))])
       connected_store).
Proof.
  apply (proj1 C4_sdk_exceptions_propagate throttling_world connected_store 0%nat
           connected_helper (PStr "hi") (PInt 256) (PBool true)
           (ClientError "ThrottlingException")).
  - reflexivity.
  - reflexivity.
Defined.

(** ** The adapter's own helper is never used *)

Lemma self_dim_same (w : World) (st : Store) (a1 a2 : addr) (m1 m2 : TitanV2Model) :
  is_model st a1 m1 -> is_model st a2 m2 -> dim m1 = dim m2 ->
  TitanV2Model.self_dim a1 w st = TitanV2Model.self_dim a2 w st.
Proof.
  intros H1 H2 Hd. unfold TitanV2Model.self_dim, bind, get_model.
  unfold is_model in H1, H2. rewrite H1, H2, Hd. reflexivity.
Qed.

Lemma self_dim_frame (w : World) (st : Store) (a : addr) :
  snd (TitanV2Model.self_dim a w st) = st.
Proof.
  unfold TitanV2Model.self_dim, bind, get_model.
  destruct (nth_error (heap st) a) as [[o | m] | ]; try reflexivity.
  destruct (dim m); reflexivity.
Qed.

Lemma loop_same_dim (w : World) (a1 a2 : addr) (m1 m2 : TitanV2Model)
  (texts : list PyVal) :
  dim m1 = dim m2 ->
  forall (acc : list PyVal) (st : Store),
    is_model st a1 m1 -> is_model st a2 m2 ->
    TitanV2Model.invoke_model_loop a1 texts acc w st
    = TitanV2Model.invoke_model_loop a2 texts acc w st.
Proof.
  intros Hd. induction texts as [ | x texts IH]; intros acc st H1 H2.
  - reflexivity.
  - cbn [TitanV2Model.invoke_model_loop]. unfold bind.
    destruct (lift (TitanV2Model.reorg_text x) w st) as [[t | ex | ] s0] eqn:E0;
      try reflexivity.
    assert (s0 = st) by (unfold lift in E0; congruence). subst s0.
    destruct (global "bedrock_embeddings" bedrock_embeddings w st)
      as [[h | ex | ] s1] eqn:E1; try reflexivity.
    assert (s1 = st).
    { unfold global in E1. destruct (bedrock_embeddings (globals st)); congruence. }
    subst s1.
    rewrite (self_dim_same w st a1 a2 m1 m2 H1 H2 Hd).
    pose proof (self_dim_frame w st a2) as Hf.
    destruct (TitanV2Model.self_dim a2 w st) as [[dd | ex | ] s2]; try reflexivity.
    cbn [snd] in Hf. subst s2.
    destruct (call_frame w st h t dd (PBool true)) as [tr Htr].
    destruct (TitanEmbeddings.__call__ h t dd (PBool true) w st) as [[e | ex | ] s3];
      try reflexivity.
    cbn [snd] in Htr. subst s3. apply IH; assumption.
Qed.

(** C10: what [invoke_model], [encode], [encode_queries] and [encode_corpus]
    do does not depend on the instance's [br_embeddings]: two instances with
    the same [dim], whatever their [br_embeddings], run in the same world from
    the same store give the same result and the same store, hence the same
    trace of requests, on every list of texts. *)
Theorem C10_result_independent_of_br_embeddings
  (w : World) (st : Store) (a1 a2 : addr) (m1 m2 : TitanV2Model) (texts : list PyVal) :
  is_model st a1 m1 ->
  is_model st a2 m2 ->
  dim m1 = dim m2 ->
  TitanV2Model.invoke_model a1 texts w st = TitanV2Model.invoke_model a2 texts w st
  /\ TitanV2Model.encode a1 texts w st = TitanV2Model.encode a2 texts w st
  /\ TitanV2Model.encode_queries a1 texts w st = TitanV2Model.encode_queries a2 texts w st
  /\ TitanV2Model.encode_corpus a1 texts w st = TitanV2Model.encode_corpus a2 texts w st.
Proof.
  intros H1 H2 Hd.
  assert (E : TitanV2Model.invoke_model a1 texts w st
              = TitanV2Model.invoke_model a2 texts w st).
  { unfold TitanV2Model.invoke_model.
    apply (loop_same_dim w a1 a2 m1 m2 texts Hd [] st H1 H2). }
  unfold TitanV2Model.encode, TitanV2Model.encode_queries, TitanV2Model.encode_corpus,
    bind.
  rewrite E. repeat split.
Qed.

Lemma C10_witness :
  let m1 := {| br_embeddings := Some 2%nat; dim := Some (PInt 256) |} in
  let m2 := {| br_embeddings := Some 4%nat; dim := Some (PInt 256) |} in
  let texts := [PStr "a"; PDict [("title", PStr "T")]] in
  (is_model two_models_store 1%nat m1 /\ is_model two_models_store 3%nat m2
   /\ br_embeddings m1 <> br_embeddings m2)
  /\ TitanV2Model.invoke_model 1%nat texts counting_world two_models_store
     = TitanV2Model.invoke_model 3%nat texts counting_world two_models_store.
Proof.
  intros m1 m2 texts. split.
  - split; [reflexivity | ]. split; [reflexivity | ]. cbn. discriminate.
  - refine (proj1 (C10_result_independent_of_br_embeddings
                     counting_world two_models_store 1%nat 3%nat m1 m2 texts _ _ _));
      reflexivity.
Defined.

(** ** Text preparation *)

Lemma slice_to_length (s : string) :
  forall n : N, (N.of_nat (String.length (Str.slice_to n s)) <= n)%N.
Proof.
  induction s as [ | c s IH]; intros n; cbn [Str.slice_to].
  - cbn. lia.
  - destruct (N.eqb_spec n 0) as [E | E].
    + cbn. lia.
    + cbn [String.length]. specialize (IH (N.pred n)). lia.
Qed.

Lemma slice_to_all (s : string) :
  forall n : N, (N.of_nat (String.length s) <= n)%N -> Str.slice_to n s = s.
Proof.
  induction s as [ | c s IH]; intros n H; cbn [Str.slice_to].
  - reflexivity.
  - cbn [String.length] in H. destruct (N.eqb_spec n 0) as [E | E]; [lia | ].
    rewrite IH; [reflexivity | lia].
Qed.

(** C9: for a dict, [process_dict_text] returns the first 30000 characters of
    the fragments joined by single spaces in the dict's order, the fragment
    of an entry being its stripped key, a space and its stripped value when
    the lowercased key contains [title], and its stripped value otherwise; the
    result has at most 30000 characters and is the whole join when that has
    at most 30000. *)
Theorem C9_process_dict_text_joins_fragments (entries : list (string * PyVal)) :
  let piece := fun kv : string * PyVal =>
    if Str.contains "title" (Str.lower (fst kv))
    then (Str.strip (fst kv) ++ " " ++ Str.strip (Py.str (snd kv)))%string
    else Str.strip (Py.str (snd kv)) in
  let joined := Str.join " " (map piece entries) in
  exists s,
    TitanV2Model.process_dict_text (PDict entries) = Ret (PStr s)
    /\ s = Str.slice_to 30000 joined
    /\ Z.of_nat (String.length s) <= 30000
    /\ (Z.of_nat (String.length joined) <= 30000 -> s = joined).
Proof.
  intros piece joined.
  exists (Str.slice_to 30000 joined).
  assert (Hmap : map TitanV2Model.fragment entries = map piece entries).
  { apply map_ext. intros [k v]. reflexivity. }
  split.
  - unfold TitanV2Model.process_dict_text. cbn [TitanV2Model.items rbind].
    rewrite Hmap. reflexivity.
  - split; [reflexivity | ]. split.
    + pose proof (slice_to_length joined 30000). lia.
    + intros H. apply slice_to_all. lia.
Qed.

Example process_dict_text_title_and_text :
  TitanV2Model.process_dict_text
    (PDict [("Title", PStr " Bedrock "); ("text", PStr "hosts models "); ("year", PInt 2024)])
  = Ret (PStr "Title Bedrock hosts models 2024").
Proof. vm_compute. reflexivity. Qed.

Lemma reorg_text_falsy (v : PyVal) :
  truthy v = false -> TitanV2Model.reorg_text v = Ret (PStr "0").
Proof.
  intros Hv. destruct (isinstance_dict v) eqn:Ed.
  - destruct v as [ | | | | | | entries]; try discriminate.
    destruct entries; [ | discriminate]. vm_compute. reflexivity.
  - unfold TitanV2Model.reorg_text. rewrite Ed. cbn [rbind]. rewrite Hv.
    cbn [negb]. vm_compute. reflexivity.
Qed.

(** C8: [reorg_text] turns every falsy input ([None], the empty string, an
    empty dict, an empty list, and also [False], [0] and [0.0]) into the text
    [0], and the request [invoke_model] issues for such an input has that
    text as its [inputText]. *)
Theorem C8_falsy_input_becomes_zero
  (w : World) (st : Store) (self : addr) (o : TitanEmbeddings) (d v : PyVal) :
  truthy v = false ->
  ready st self o d ->
  TitanV2Model.reorg_text v = Ret (PStr "0")
  /\ trace (snd (TitanV2Model.invoke_model self [v] w st))
     = trace st
       ++ [InvokeModel
             {| via := bedrock_boto3 o;
                body := Json.dumps (PDict [("inputText", PStr "0"); ("dimensions", d);
                                           ("normalize", PBool true)]);
                modelId := model_id o;
                accept := cls_accept (class_attrs st);
                contentType := cls_content_type (class_attrs st) |}].
Proof.
  intros Hv Hready. split; [exact (reorg_text_falsy v Hv) | ].
  unfold TitanV2Model.invoke_model.
  rewrite (loop_step w st self o d v [] [] Hready).
  rewrite (reorg_text_falsy v Hv). cbv zeta.
  destruct (outcome _); reflexivity.
Qed.

Lemma C8_witness :
  (truthy PNone = false /\ truthy (PStr "") = false
   /\ truthy (PDict []) = false /\ truthy (PList []) = false)
  /\ TitanV2Model.reorg_text PNone = Ret (PStr "0")
  /\ TitanV2Model.reorg_text (PStr "") = Ret (PStr "0")
  /\ TitanV2Model.reorg_text (PDict []) = Ret (PStr "0")
  /\ TitanV2Model.reorg_text (PList []) = Ret (PStr "0").
Proof.
  assert (Hready : ready two_models_store 1%nat connected_helper (PInt 256)).
  { split.
    - exists 0%nat. split; reflexivity.
    - eexists. split; reflexivity. }
  split; [repeat split | ].
  split; [ | split; [ | split]].
  - exact (proj1 (C8_falsy_input_becomes_zero counting_world two_models_store 1%nat
                    connected_helper (PInt 256) PNone eq_refl Hready)).
  - exact (proj1 (C8_falsy_input_becomes_zero counting_world two_models_store 1%nat
                    connected_helper (PInt 256) (PStr "") eq_refl Hready)).
  - exact (proj1 (C8_falsy_input_becomes_zero counting_world two_models_store 1%nat
                    connected_helper (PInt 256) (PDict []) eq_refl Hready)).
  - exact (proj1 (C8_falsy_input_becomes_zero counting_world two_models_store 1%nat
                    connected_helper (PInt 256) (PList []) eq_refl Hready)).
Defined.

(** The request for an empty text, read back by the endpoint. *)
Example empty_text_request_body :
  map (fun ev => match ev with
                 | InvokeModel q => Json.decode (body q)
                 | AssumeRole _ => Unmodelled
                 end)
      (trace (snd (TitanV2Model.invoke_model 1%nat [PStr ""] counting_world
                     two_models_store)))
  = [Ret (PDict [("inputText", PStr "0"); ("dimensions", PInt 256);
                 ("normalize", PBool true)])].
Proof. vm_compute. reflexivity. Qed.

(** ** Construction *)

Lemma get_bedrock_client_default (w : World) (st : Store) :
  get_bedrock_client None (Some "us-east-1"%string) (Some true) None None w st
  = (Ret (default_client w), st).
Proof.
  unfold get_bedrock_client, bind, environ_get_AWS_PROFILE, ret, default_client.
  cbn [given]. destruct (environ_AWS_PROFILE w) as [p | ]; cbn [given].
  - destruct (truthy (PStr p)); reflexivity.
  - reflexivity.
Qed.

Lemma nth_error_middle {A : Type} (l r : list A) (x : A) :
  nth_error (l ++ x :: r) (List.length l) = Some x.
Proof. induction l as [ | y l IH]; [reflexivity | exact IH]. Qed.

Lemma update_middle {A : Type} (l r : list A) (x y : A) :
  update (List.length l) y (l ++ x :: r) = l ++ y :: r.
Proof.
  induction l as [ | z l IH]; [reflexivity | ].
  cbn [List.length app update]. rewrite IH. reflexivity.
Qed.

(** [TitanV2Model()] always returns, with a new object whose [dim] is 256 and
    whose [br_embeddings] is a new helper of its own *)
Lemma model_init_run (w : World) (st : Store) :
  TitanV2Model.__init__ w st
  = (Ret (List.length (heap st)),
     with_heap
       (heap st
        ++ [OTitanV2Model {| br_embeddings := Some (S (List.length (heap st)));
                             dim := Some (PInt 256) |};
            OTitanEmbeddings {| bedrock_boto3 := default_client w;
                                model_id := titan_model_id |}])
       st).
Proof.
  unfold TitanV2Model.__init__, TitanV2Model._init_connection.
  unfold bind at 1. unfold alloc at 1.
  unfold bind at 1. unfold bind at 1.
  rewrite get_bedrock_client_default.
  unfold bind at 1. unfold TitanEmbeddings.__init__, alloc.
  cbn [heap with_heap].
  unfold bind at 1. unfold get_model at 1. cbn [heap with_heap].
  rewrite <- app_assoc. cbn [app]. rewrite nth_error_middle.
  unfold bind at 1. unfold set_model at 1. cbn [heap with_heap].
  rewrite update_middle.
  unfold bind at 1. unfold get_model at 1. cbn [heap with_heap].
  rewrite nth_error_middle.
  unfold set_model. cbn [heap with_heap br_embeddings].
  rewrite update_middle. unfold ret.
  rewrite length_app. cbn [List.length]. rewrite Nat.add_1_r.
  reflexivity.
Qed.

Lemma connect_cell_run (w : World) (st : Store) :
  connect_cell w st
  = (Ret tt,
     {| heap := heap st ++ [OTitanEmbeddings {| bedrock_boto3 := default_client w;
                                                 model_id := titan_model_id |}];
        class_attrs := class_attrs st;
        globals := {| boto3_bedrock_runtime := Some (default_client w);
                      bedrock_embeddings := Some (List.length (heap st));
                      prompt_data := prompt_data (globals st) |};
        trace := trace st |}).
Proof.
  unfold connect_cell. unfold bind at 1. rewrite get_bedrock_client_default.
  reflexivity.
Qed.

(** the requests of a run of the loop, whether it returns or not *)
Lemma loop_trace (w : World) (self : addr) (o : TitanEmbeddings) (d : PyVal)
  (texts : list PyVal) :
  forall (acc : list PyVal) (st : Store),
    ready st self o d ->
    exists reqs,
      trace (snd (TitanV2Model.invoke_model_loop self texts acc w st))
      = trace st ++ map InvokeModel reqs
      /\ (List.length reqs <= List.length texts)%nat
      /\ Forall (fun q => exists t,
                   q = helper_request o (class_attrs st) t d (PBool true)) reqs.
Proof.
  induction texts as [ | x texts IH]; intros acc st Hready.
  - exists []. cbn. rewrite app_nil_r. split; [reflexivity | split; [lia | constructor]].
  - rewrite (loop_step w st self o d x texts acc Hready).
    destruct (TitanV2Model.reorg_text x) as [t | ex | ].
    + cbv zeta.
      set (q := helper_request o (class_attrs st) t d (PBool true)).
      set (st1 := with_trace (trace st ++ [InvokeModel q]) st).
      assert (Hone : exists reqs,
                 trace st1 = trace st ++ map InvokeModel reqs
                 /\ (List.length reqs <= List.length (x :: texts))%nat
                 /\ Forall (fun q => exists t,
                              q = helper_request o (class_attrs st) t d (PBool true))
                           reqs).
      { exists [q]. split; [reflexivity | ]. split; [cbn; lia | ].
        constructor; [exists t; reflexivity | constructor]. }
      destruct (outcome (bedrock_invoke_model w (trace st) q)) as [e | ex | ];
        [ | exact Hone | exact Hone].
      destruct (IH (acc ++ [e]) st1 (ready_with_trace _ st self o d Hready))
        as [reqs [Htr [Hlen Hall]]].
      exists (q :: reqs). split; [ | split].
      * rewrite Htr. unfold st1. cbn [trace with_trace map].
        rewrite <- app_assoc. reflexivity.
      * cbn. lia.
      * constructor; [exists t; reflexivity | exact Hall].
    + exists []. cbn. rewrite app_nil_r. split; [reflexivity | split; [lia | constructor]].
    + exists []. cbn. rewrite app_nil_r. split; [reflexivity | split; [lia | constructor]].
Qed.

(** ** The dimension of a request *)

(** C3, as stated, fails: [__call__] sends whatever [dimensions] it is given;
    called with 100 it asks the endpoint for 100 dimensions. *)
Lemma C3_counterexample :
  ~ Forall asks_allowed_dimension
      (trace (snd (TitanEmbeddings.__call__ 0%nat (PStr "x") (PInt 100) (PBool true)
                     (steady_world sample_embedding) connected_store))).
Proof.
  intros H.
  rewrite (call_run (steady_world sample_embedding) connected_store 0%nat
             connected_helper (PStr "x") (PInt 100) (PBool true) eq_refl) in H.
  cbn [snd trace with_trace] in H.
  apply Forall_app in H. destruct H as [_ H].
  inversion H as [ | ev evs Hq _]; subst.
  destruct Hq as [d [Hd Hallowed]].
  vm_compute in Hd. inversion Hd; subst d.
  destruct Hallowed as [E | [E | E]]; discriminate E.
Qed.

(** C3, amended: the output dimension of a request is the [dimensions]
    argument of the [__call__] that builds it, passed on unchecked.
    (1) The body of the request of [__call__(text, dimensions, normalize)]
    carries [dimensions] as given.  (2) Every request of [invoke_model]
    carries the instance's [dim].  (3) [TitanV2Model()] sets [dim] to 256. *)
Theorem C3_request_carries_the_given_dimension :
  (forall (w : World) (st : Store) (self : addr) (o : TitanEmbeddings)
          (text dimensions normalize : PyVal),
      is_embeddings st self o ->
      exists q,
        trace (snd (TitanEmbeddings.__call__ self text dimensions normalize w st))
        = trace st ++ [InvokeModel q]
        /\ body q = Json.dumps (PDict [("inputText", text); ("dimensions", dimensions);
                                       ("normalize", normalize)]))
  /\ (forall (w : World) (st : Store) (self : addr) (o : TitanEmbeddings) (d : PyVal)
             (texts : list PyVal),
         ready st self o d ->
         exists reqs,
           trace (snd (TitanV2Model.invoke_model self texts w st))
           = trace st ++ map InvokeModel reqs
           /\ Forall (fun q => exists t,
                        body q = Json.dumps (PDict [("inputText", t); ("dimensions", d);
                                                    ("normalize", PBool true)])) reqs)
  /\ (forall (w : World) (st : Store) (self : addr) (st' : Store),
         TitanV2Model.__init__ w st = (Ret self, st') ->
         exists m, is_model st' self m /\ dim m = Some (PInt 256)).
Proof.
  split; [ | split].
  - intros w st self o text dimensions normalize Hself.
    exists (helper_request o (class_attrs st) text dimensions normalize).
    rewrite (call_run w st self o text dimensions normalize Hself).
    split; reflexivity.
  - intros w st self o d texts Hready.
    destruct (loop_trace w self o d texts [] st Hready) as [reqs [Htr [_ Hall]]].
    exists reqs. split; [exact Htr | ].
    apply Forall_impl with (2 := Hall).
    intros q [t Hq]. exists t. rewrite Hq. reflexivity.
  - intros w st self st' H. rewrite model_init_run in H.
    inversion H; subst. eexists. split.
    + unfold is_model. cbn [heap with_heap]. apply nth_error_middle.
    + reflexivity.
Qed.

Lemma C3_witness :
  exists m,
    is_model two_models_store 3%nat m /\ dim m = Some (PInt 256).
Proof.
  apply (proj2 (proj2 C3_request_carries_the_given_dimension)
           (steady_world sample_embedding)
           (snd (TitanV2Model.__init__ (steady_world sample_embedding) connected_store))
           3%nat two_models_store).
  vm_compute. reflexivity.
Defined.

(** The requests of the notebook's own cells ask for 256. *)
Example notebook_requests_ask_256 :
  Forall asks_allowed_dimension
    (trace (snd ((_ <- generate_cell ;; _ <- helper_cell ;; final_output_cell)%M
                   (steady_world sample_embedding) connected_store))).
Proof.
  vm_compute.
  repeat (constructor; [eexists; split; [vm_compute; reflexivity | left; reflexivity] | ]).
  constructor.
Qed.

(** ** The inline cell and the helper cell *)

Lemma get_of_getitem (v : PyVal) (key : string) (e : PyVal) :
  Py.getitem v key = Ret e -> Py.get v key = Ret e.
Proof.
  destruct v as [ | b | n | f | s | l | entries]; cbn; try discriminate.
  destruct (Py.lookup key entries); [tauto | discriminate].
Qed.

Lemma getitem_of_get (v : PyVal) (key : string) (e : PyVal) :
  Py.get v key = Ret e -> e <> PNone -> Py.getitem v key = Ret e.
Proof.
  destruct v as [ | b | n | f | s | l | entries]; cbn; try discriminate.
  destruct (Py.lookup key entries); [tauto | ].
  intros H Hne. inversion H. congruence.
Qed.

(** C7: after the connection cell, on the class attributes of the helper class
    cell, the inline cell and the helper cell run one after the other issue
    the same request (same client, body, model id, accept and content type),
    whose body is [json.dumps] of [sample_model_input]; and when the SDK gives
    them the same answer, an embedding returned by the helper is the one the
    inline cell reads, and an embedding the inline cell reads (a value other
    than [None]) is the one the helper returns. *)
Theorem C7_inline_and_helper_cells_agree (w : World) (st0 st : Store) :
  class_attrs st0 = TitanEmbeddings_class ->
  connect_cell w st0 = (Ret tt, st) ->
  let inline := generate_cell w st in
  let helper := helper_cell w (snd inline) in
  exists q,
    trace (snd inline) = trace st ++ [InvokeModel q]
    /\ trace (snd helper) = trace (snd inline) ++ [InvokeModel q]
    /\ body q = Json.dumps (PDict [("inputText", PStr prompt_data_text);
                                   ("dimensions", PInt 256);
                                   ("normalize", PBool true)])
    /\ (bedrock_invoke_model w (trace st) q
        = bedrock_invoke_model w (trace (snd inline)) q ->
        (forall e, fst helper = Ret e -> fst inline = Ret e)
        /\ (forall e, fst inline = Ret e -> e <> PNone -> fst helper = Ret e)).
Proof.
  intros Hcls Hconnect.
  rewrite connect_cell_run in Hconnect. injection Hconnect as Hst.
  intros inline helper.
  set (o := {| bedrock_boto3 := default_client w; model_id := titan_model_id |}).
  set (q := helper_request o TitanEmbeddings_class (PStr prompt_data_text)
              (PInt 256) (PBool true)).
  set (g1 := {| boto3_bedrock_runtime := Some (default_client w);
                bedrock_embeddings := Some (List.length (heap st0));
                prompt_data := Some prompt_data_text |}).
  set (st1 := {| heap := heap st; class_attrs := class_attrs st; globals := g1;
                 trace := trace st ++ [InvokeModel q] |}).
  assert (Hinline : inline
                    = (match bedrock_invoke_model w (trace st) q with
                       | inl e => Raise (SdkError e)
                       | inr r =>
                           (raw <- response_get_body_read r ;;
                            v <- Json.loads raw ;; Py.get v "embedding")%res
                       end, st1)).
  { unfold inline, st1, g1. rewrite <- Hst.
    unfold generate_cell, bind, set_globals, global, client_invoke_model, lift,
      with_globals, with_trace.
    cbn [globals boto3_bedrock_runtime bedrock_embeddings prompt_data trace heap
         class_attrs].
    change {| via := default_client w;
              body := Json.dumps (PDict [("inputText", PStr prompt_data_text);
                                         ("dimensions", PInt 256);
                                         ("normalize", PBool true)]);
              modelId := "amazon.titan-embed-text-v2:0";
              accept := "application/json";
              contentType := "application/json" |} with q.
    destruct (bedrock_invoke_model w (trace st0) q) as [e | r]; [reflexivity | ].
    destruct (response_get_body_read r) as [raw | x | ]; cbn [rbind];
      [ destruct (Json.loads raw); reflexivity | reflexivity | reflexivity ]. }
  assert (Hself : is_embeddings st1 (List.length (heap st0)) o).
  { unfold is_embeddings, st1. cbn [heap]. rewrite <- Hst. cbn [heap].
    apply nth_error_middle. }
  assert (Hc : class_attrs st1 = TitanEmbeddings_class).
  { unfold st1. cbn [class_attrs]. rewrite <- Hst. cbn [class_attrs]. exact Hcls. }
  assert (Hhelper : helper
                    = (outcome (bedrock_invoke_model w (trace st1) q),
                       with_trace (trace st1 ++ [InvokeModel q]) st1)).
  { unfold helper. rewrite Hinline. cbn [snd].
    unfold helper_cell, bind, global.
    change (bedrock_embeddings (globals st1)) with (Some (List.length (heap st0))).
    cbv iota beta.
    change (prompt_data (globals st1)) with (Some prompt_data_text).
    cbv iota beta.
    rewrite (call_run w st1 _ o _ _ _ Hself). rewrite Hc. reflexivity. }
  exists q. rewrite Hhelper, Hinline. cbn [fst snd].
  split; [reflexivity | ]. split; [reflexivity | ]. split; [reflexivity | ].
  intros Hsame. unfold st1 in Hsame |- *. cbn [trace] in Hsame |- *.
  rewrite <- Hsame.
  destruct (bedrock_invoke_model w (trace st) q) as [e0 | r]; cbn [outcome].
  - split; intros e H; [exact H | intros _; exact H].
  - unfold parse_response.
    destruct (response_get_body_read r) as [raw | x | ]; cbn [rbind];
      [ | split; intros e H; [exact H | intros _; exact H]
        | split; intros e H; [exact H | intros _; exact H] ].
    destruct (Json.loads raw) as [v | x | ]; cbn [rbind];
      [ | split; intros e H; [exact H | intros _; exact H]
        | split; intros e H; [exact H | intros _; exact H] ].
    split; intros e H.
    + apply get_of_getitem. exact H.
    + intros Hne. apply getitem_of_get; assumption.
Qed.

Lemma C7_witness :
  let w := steady_world sample_embedding in
  let inline := generate_cell w connected_store in
  let helper := helper_cell w (snd inline) in
  (class_attrs fresh_store = TitanEmbeddings_class
   /\ connect_cell w fresh_store = (Ret tt, connected_store))
  /\ exists q,
       trace (snd inline) = trace connected_store ++ [InvokeModel q]
       /\ trace (snd helper) = trace (snd inline) ++ [InvokeModel q]
       /\ body q = Json.dumps (PDict [("inputText", PStr prompt_data_text);
                                      ("dimensions", PInt 256);
                                      ("normalize", PBool true)])
       /\ (bedrock_invoke_model w (trace connected_store) q
           = bedrock_invoke_model w (trace (snd inline)) q ->
           (forall e, fst helper = Ret e -> fst inline = Ret e)
           /\ (forall e, fst inline = Ret e -> e <> PNone -> fst helper = Ret e)).
Proof.
  intros w inline helper.
  assert (Hconnect : connect_cell w fresh_store = (Ret tt, connected_store)).
  { vm_compute. reflexivity. }
  split; [split; [reflexivity | exact Hconnect] | ].
  exact (C7_inline_and_helper_cells_agree w fresh_store connected_store
           eq_refl Hconnect).
Defined.

(** Both cells read the sample embedding from a steady service. *)
Example inline_and_helper_cells_same_embedding :
  let w := steady_world sample_embedding in
  let inline := generate_cell w connected_store in
  fst inline = Ret sample_embedding
  /\ fst (helper_cell w (snd inline)) = Ret sample_embedding.
Proof. vm_compute. split; reflexivity. Qed.

(** * Further properties of the cells *)

(** ** [reorg_text] *)

(** The bare [except] of [reorg_text] lets no exception out: for every input
    it returns a value (or leaves the model), it never raises. *)
Theorem reorg_text_never_raises (v : PyVal) :
  ~ raises (TitanV2Model.reorg_text v).
Proof.
  intros [e He]. unfold TitanV2Model.reorg_text in He.
  destruct v as [ | b | n | f | s | l | entries];
    cbn [isinstance_dict TitanV2Model.process_dict_text TitanV2Model.items rbind] in He;
    destruct (rbind (Json.loads _) _); discriminate He.
Qed.

(** A truthy input that is not a dict and that [json.loads] does not turn
    into a dict comes back as it is: a number, a list, a text that is no
    JSON, a text that is a JSON number or array.  Nothing is stripped or cut
    in that case. *)
Theorem reorg_text_keeps_what_is_no_json_object (v : PyVal) :
  isinstance_dict v = false ->
  truthy v = true ->
  (forall entries, Json.loads v <> Ret (PDict entries)) ->
  Json.loads v <> Unmodelled ->
  TitanV2Model.reorg_text v = Ret v.
Proof.
  intros Hd Ht Hnodict Hmod.
  unfold TitanV2Model.reorg_text. rewrite Hd. cbn [rbind]. rewrite Ht. cbn [negb].
  destruct (Json.loads v) as [parsed | ex | ]; cbn [rbind try_except].
  - destruct parsed as [ | b | n | f | s | l | entries]; try reflexivity.
    exfalso. exact (Hnodict entries eq_refl).
  - reflexivity.
  - exfalso. exact (Hmod eq_refl).
Qed.

Lemma reorg_text_keeps_witness :
  TitanV2Model.reorg_text (PList [PStr "a"; PInt 1]) = Ret (PList [PStr "a"; PInt 1])
  /\ TitanV2Model.reorg_text (PStr " plain text ") = Ret (PStr " plain text ")
  /\ TitanV2Model.reorg_text (PStr "[1, 2]") = Ret (PStr "[1, 2]").
Proof.
  split; [ | split].
  - apply reorg_text_keeps_what_is_no_json_object;
      [reflexivity | reflexivity | intros entries H; discriminate H
       | intros H; discriminate H].
  - apply reorg_text_keeps_what_is_no_json_object;
      [reflexivity | reflexivity | intros entries H; vm_compute in H; discriminate H
       | intros H; vm_compute in H; discriminate H].
  - apply reorg_text_keeps_what_is_no_json_object;
      [reflexivity | reflexivity | intros entries H; vm_compute in H; discriminate H
       | intros H; vm_compute in H; discriminate H].
Defined.

(** A dict is flattened and the flat text is then treated like a text input:
    when the flat text happens to be a JSON object it is parsed and flattened
    a second time. *)
Theorem reorg_text_dict_is_reorg_of_its_text (entries : list (string * PyVal)) :
  TitanV2Model.reorg_text (PDict entries)
  = TitanV2Model.reorg_text
      (PStr (Str.slice_to 30000
               (Str.join " " (map TitanV2Model.fragment entries)))).
Proof.
  unfold TitanV2Model.reorg_text.
  cbn [isinstance_dict TitanV2Model.process_dict_text TitanV2Model.items rbind].
  reflexivity.
Qed.

Example reorg_text_flattens_twice :
  TitanV2Model.reorg_text
    (PDict [("text", PStr (Json.dumps (PDict [("note", PStr "inner")])))])
  = Ret (PStr "inner").
Proof. vm_compute. reflexivity. Qed.

(** Whatever [reorg_text] returns for a dict is a text of at most 30000
    characters. *)
Theorem reorg_text_dict_is_short (entries : list (string * PyVal)) (r : PyVal) :
  TitanV2Model.reorg_text (PDict entries) = Ret r ->
  exists s, r = PStr s /\ Z.of_nat (String.length s) <= 30000.
Proof.
  rewrite reorg_text_dict_is_reorg_of_its_text.
  set (flat := Str.slice_to 30000 (Str.join " " (map TitanV2Model.fragment entries))).
  assert (Hflat : Z.of_nat (String.length flat) <= 30000).
  { pose proof (slice_to_length
                  (Str.join " " (map TitanV2Model.fragment entries)) 30000).
    unfold flat. lia. }
  unfold TitanV2Model.reorg_text. cbn [isinstance_dict rbind].
  destruct (truthy (PStr flat)) eqn:Et; cbn [negb].
  - destruct (Json.loads (PStr flat)) as [parsed | ex | ]; cbn [rbind try_except].
    + destruct parsed as [ | b | n | f | s | l | inner];
        cbn [TitanV2Model.process_dict_text TitanV2Model.items rbind try_except];
        intros H; inversion H; subst r;
        try (exists flat; split; [reflexivity | exact Hflat]).
      eexists. split; [reflexivity | ].
      pose proof (slice_to_length
                    (Str.join " " (map TitanV2Model.fragment inner)) 30000).
      lia.
    + intros H. inversion H; subst r. exists flat. split; [reflexivity | exact Hflat].
    + intros H. discriminate H.
  - intros H. vm_compute in H. inversion H; subst r.
    exists "0"%string. split; [reflexivity | cbn; lia].
Qed.

Lemma reorg_text_dict_is_short_witness :
  exists s,
    PStr "Title Bedrock hosts models" = PStr s
    /\ Z.of_nat (String.length s) <= 30000.
Proof.
  apply (reorg_text_dict_is_short
           [("Title", PStr " Bedrock "); ("text", PStr "hosts models ")]).
  vm_compute. reflexivity.
Defined.

(** ** Responses the helper cannot read *)

(** When the SDK answers but the answer holds no embedding, [__call__] raises
    after its one request and changes nothing else: [AttributeError] for a
    response without body, [JSONDecodeError] for a body that is no JSON,
    [KeyError] for a JSON object without the key [embedding], [TypeError] for
    JSON that is no object. *)
Theorem call_on_unreadable_response
  (w : World) (st : Store) (self : addr) (o : TitanEmbeddings)
  (text dimensions normalize : PyVal) (r : Response) :
  is_embeddings st self o ->
  let q := helper_request o (class_attrs st) text dimensions normalize in
  let st' := with_trace (trace st ++ [InvokeModel q]) st in
  bedrock_invoke_model w (trace st) q = inr r ->
  (response_body r = None ->
   TitanEmbeddings.__call__ self text dimensions normalize w st
   = (Raise (AttributeError "read"), st'))
  /\ (forall raw, response_body r = Some raw ->
                  Json.decode raw = Raise JSONDecodeError ->
                  TitanEmbeddings.__call__ self text dimensions normalize w st
                  = (Raise JSONDecodeError, st'))
  /\ (forall raw entries,
         response_body r = Some raw ->
         Json.decode raw = Ret (PDict entries) ->
         Py.lookup "embedding" entries = None ->
         TitanEmbeddings.__call__ self text dimensions normalize w st
         = (Raise (KeyError "embedding"), st'))
  /\ (forall raw parsed,
         response_body r = Some raw ->
         Json.decode raw = Ret parsed ->
         isinstance_dict parsed = false ->
         exists msg,
           TitanEmbeddings.__call__ self text dimensions normalize w st
           = (Raise (TypeError msg), st')).
Proof.
  intros Hself q st' Hans.
  rewrite (call_run w st self o text dimensions normalize Hself).
  fold q. fold st'. rewrite Hans. cbn [outcome].
  unfold parse_response, response_get_body_read.
  split; [ | split; [ | split]].
  - intros Hb. rewrite Hb. reflexivity.
  - intros raw Hb Hd. rewrite Hb. cbn [rbind Json.loads]. rewrite Hd. reflexivity.
  - intros raw entries Hb Hd Hl. rewrite Hb. cbn [rbind Json.loads]. rewrite Hd.
    cbn [rbind Py.getitem]. rewrite Hl. reflexivity.
  - intros raw parsed Hb Hd Hnd. rewrite Hb. cbn [rbind Json.loads]. rewrite Hd.
    cbn [rbind].
    destruct parsed as [ | b | n | f | s | l | entries];
      try discriminate Hnd; cbn [Py.getitem]; eexists; reflexivity.
Qed.

Lemma call_on_unreadable_response_witness :
  TitanEmbeddings.__call__ 0%nat (PStr "hi") (PInt 256) (PBool true)
    {| environ_AWS_PROFILE := None;
       sts_assume_role := fun _ _ => inl (ClientError "AccessDenied");
       bedrock_invoke_model := fun _ _ => inr {| response_body := None |} |}
    connected_store
  = (Raise (AttributeError "read"),
     with_trace
       (trace connected_store
        ++ [InvokeModel (helper_request connected_helper
                           (class_attrs connected_store)
                           (PStr "hi") (PInt 256) (PBool true))])
       connected_store).
Proof.
  exact (proj1 (call_on_unreadable_response
                  {| environ_AWS_PROFILE := None;
                     sts_assume_role := fun _ _ => inl (ClientError "AccessDenied");
                     bedrock_invoke_model :=
                       fun _ _ => inr {| response_body := None |} |}
                  connected_store 0%nat connected_helper
                  (PStr "hi") (PInt 256) (PBool true)
                  {| response_body := None |} eq_refl eq_refl) eq_refl).
Defined.

(** A JSON array as response body makes the helper raise [TypeError]. *)
Example call_on_array_response :
  exists msg,
    fst (TitanEmbeddings.__call__ 0%nat (PStr "hi") (PInt 256) (PBool true)
           {| environ_AWS_PROFILE := None;
              sts_assume_role := fun _ _ => inl (ClientError "AccessDenied");
              bedrock_invoke_model :=
                fun _ _ => inr {| response_body := Some "[1, 2]" |} |}
           connected_store)
    = Raise (TypeError msg).
Proof. eexists. vm_compute. reflexivity. Qed.

(** ** Runs of [invoke_model] that do not return *)

(** Whether it returns or raises, a run of [invoke_model] over [n] texts
    issues at most [n] requests, all through the helper bound to the global
    name, each with the instance's [dim] and [normalize=True]; it issues no
    STS call. *)
Theorem invoke_model_requests_bounded
  (w : World) (st : Store) (self : addr) (o : TitanEmbeddings) (d : PyVal)
  (texts : list PyVal) :
  ready st self o d ->
  exists reqs,
    trace (snd (TitanV2Model.invoke_model self texts w st))
    = trace st ++ map InvokeModel reqs
    /\ (List.length reqs <= List.length texts)%nat
    /\ Forall (fun q =>
                 via q = bedrock_boto3 o
                 /\ modelId q = model_id o
                 /\ exists t, body q = Json.dumps (PDict [("inputText", t);
                                                         ("dimensions", d);
                                                         ("normalize", PBool true)]))
              reqs.
Proof.
  intros Hready.
  destruct (loop_trace w self o d texts [] st Hready) as [reqs [Htr [Hlen Hall]]].
  exists reqs. split; [exact Htr | ]. split; [exact Hlen | ].
  apply Forall_impl with (2 := Hall).
  intros q [t Hq]. subst q. split; [reflexivity | ]. split; [reflexivity | ].
  exists t. reflexivity.
Qed.

Lemma invoke_model_requests_bounded_witness :
  exists reqs,
    trace (snd (TitanV2Model.invoke_model 1%nat [PStr "a"; PStr "b"] throttling_world
                  two_models_store))
    = trace two_models_store ++ map InvokeModel reqs
    /\ (List.length reqs <= List.length [PStr "a"; PStr "b"])%nat
    /\ Forall (fun q =>
                 via q = bedrock_boto3 connected_helper
                 /\ modelId q = model_id connected_helper
                 /\ exists t, body q = Json.dumps (PDict [("inputText", t);
                                                         ("dimensions", PInt 256);
                                                         ("normalize", PBool true)]))
              reqs.
Proof.
  apply (invoke_model_requests_bounded throttling_world two_models_store 1%nat
           connected_helper (PInt 256)).
  split.
  - exists 0%nat. split; reflexivity.
  - eexists. split; reflexivity.
Defined.

(** [invoke_model] reads the global name [bedrock_embeddings], not the
    instance's own helper: while that name is unbound, a run over a non-empty
    list raises [NameError] before any request, whatever [self.br_embeddings]
    holds. *)
Theorem invoke_model_needs_the_global_helper
  (w : World) (st : Store) (self : addr) (x t : PyVal) (texts : list PyVal) :
  bedrock_embeddings (globals st) = None ->
  TitanV2Model.reorg_text x = Ret t ->
  TitanV2Model.invoke_model self (x :: texts) w st
  = (Raise (NameError "bedrock_embeddings"), st).
Proof.
  intros Hg Ht.
  unfold TitanV2Model.invoke_model. cbn [TitanV2Model.invoke_model_loop].
  unfold bind at 1. unfold lift at 1. rewrite Ht.
  unfold bind at 1. unfold global at 1. rewrite Hg. reflexivity.
Qed.

Lemma invoke_model_needs_the_global_helper_witness :
  let st := snd (TitanV2Model.__init__ (steady_world sample_embedding) fresh_store) in
  (exists m helper, is_model st 0%nat m /\ br_embeddings m = Some helper)
  /\ TitanV2Model.invoke_model 0%nat [PStr "this is a test"]
       (steady_world sample_embedding) st
     = (Raise (NameError "bedrock_embeddings"), st).
Proof.
  intros st. split.
  - eexists. exists 1%nat. split; reflexivity.
  - apply (invoke_model_needs_the_global_helper (steady_world sample_embedding) st
             0%nat (PStr "this is a test") (PStr "this is a test") []).
    + reflexivity.
    + vm_compute. reflexivity.
Defined.
